(** * sofascore_scraper.py: label/value extraction and the metric registry

    A shallow embedding of [src/sofascore_scraper.py]: the two scraper
    backends ([RequestsScraper], [PlaywrightScraper]), the extractors
    their [find_metrics] build, [MetricBase] ([fetch_raw], [get_value],
    [refresh]) and the class-generating loop of [MetricMeta.__new__].

    Conventions.
    - Python [str] is [string]; only ASCII code points are given a
      character class (digit, letter, whitespace).
    - A BeautifulSoup document is a rose tree of tags and text nodes, a
      node is referred to by its path of child indices from the root.
    - Python closures are defunctionalised: one constructor of
      [extractor] per lambda of the source, [call_extractor] applies it.
    - [float(s)] is the exact rational the decimal token denotes; a
      delay is a finite rational, an infinity or a NaN.
    - Fetching and sleeping act on an explicit [world]. *)

From Stdlib Require Import String Ascii List Bool Arith ZArith QArith Lia Lqa.
From stdpp Require Import gmap strings.
Import ListNotations.

Local Open Scope string_scope.
Local Open Scope list_scope.

(** ** Characters and the [str] methods the source calls *)

Module Str.

Definition code (c : ascii) : nat := nat_of_ascii c.

Definition in_range (lo hi : nat) (c : ascii) : bool :=
  Nat.leb lo (code c) && Nat.leb (code c) hi.

(** [\d] and [0-9]. *)
Definition is_digit (c : ascii) : bool := in_range 48 57 c.
Definition is_upper (c : ascii) : bool := in_range 65 90 c.
Definition is_lower (c : ascii) : bool := in_range 97 122 c.
(** [0-9a-zA-Z]. *)
Definition is_alnum (c : ascii) : bool := is_digit c || is_upper c || is_lower c.
(** [str.isspace] and [\s]: tab .. carriage return, the four separators
    FS .. US, and the space. *)
Definition is_space (c : ascii) : bool := in_range 9 13 c || in_range 28 32 c.

Definition to_upper (c : ascii) : ascii :=
  if is_lower c then ascii_of_nat (code c - 32) else c.
Definition to_lower (c : ascii) : ascii :=
  if is_upper c then ascii_of_nat (code c + 32) else c.

Fixpoint lstrip (s : string) : string :=
  match s with
  | EmptyString => EmptyString
  | String c s' => if is_space c then lstrip s' else s
  end.

Fixpoint rstrip (s : string) : string :=
  match s with
  | EmptyString => EmptyString
  | String c s' =>
      match rstrip s' with
      | EmptyString => if is_space c then EmptyString else String c EmptyString
      | r => String c r
      end
  end.

(** [s.strip()]. *)
Definition strip (s : string) : string := rstrip (lstrip s).

(** [bool(s)] of a [str]. *)
Definition nonempty (s : string) : bool :=
  match s with EmptyString => false | _ => true end.

(** [s.title()]: a cased character is upper-cased when the character
    before it is not cased, lower-cased otherwise. *)
Fixpoint title_from (previous_is_cased : bool) (s : string) : string :=
  match s with
  | EmptyString => EmptyString
  | String c s' =>
      if is_lower c then
        String (if previous_is_cased then c else to_upper c) (title_from true s')
      else if is_upper c then
        String (if previous_is_cased then to_lower c else c) (title_from true s')
      else String c (title_from false s')
  end.

Definition title (s : string) : string := title_from false s.

Fixpoint filter (p : ascii -> bool) (s : string) : string :=
  match s with
  | EmptyString => EmptyString
  | String c s' => if p c then String c (filter p s') else filter p s'
  end.

(** [s.endswith(suffix)]. *)
Definition endswith (s suffix : string) : bool :=
  let n := String.length s in
  let m := String.length suffix in
  Nat.leb m n && String.eqb (substring (n - m) m s) suffix.

(** [sep.join(parts)]. *)
Fixpoint join (sep : string) (parts : list string) : string :=
  match parts with
  | [] => EmptyString
  | [x] => x
  | x :: rest => String.append x (String.append sep (join sep rest))
  end.

(** *** Shapes of strings, to state what the methods above preserve

    [clean s]: [s] neither starts nor ends with whitespace. *)

Definition head_nonspace (s : string) : bool :=
  match s with
  | EmptyString => true
  | String c _ => negb (is_space c)
  end.

Fixpoint last_nonspace (s : string) : bool :=
  match s with
  | EmptyString => true
  | String c EmptyString => negb (is_space c)
  | String _ s' => last_nonspace s'
  end.

Definition clean (s : string) : bool := head_nonspace s && last_nonspace s.

Fixpoint nospace (s : string) : bool :=
  match s with
  | EmptyString => true
  | String c s' => negb (is_space c) && nospace s'
  end.

(** Some character of the string is a digit. *)
Fixpoint has_digit (s : string) : bool :=
  match s with
  | EmptyString => false
  | String c s' => is_digit c || has_digit s'
  end.

End Str.

(** ** Regular expressions

    The label patterns of [candidates] are only asked whether they match
    somewhere ([label_re.search(...)] used as a truth value); they are
    kept as syntax and run by a backtracking matcher.  All of them are
    compiled with [re.I]. *)

Module Re.

Inductive regex : Type :=
| Empty
| Lit (c : ascii)
| Seq (r1 r2 : regex)
| Alt (r1 r2 : regex)
| Opt (r : regex)
| Bol
| Eol.

Fixpoint lit (s : string) : regex :=
  match s with
  | EmptyString => Empty
  | String c s' => Seq (Lit c) (lit s')
  end.

(** [$] without [re.M]: the end, or just before a final newline. *)
Definition at_dollar (s : string) : bool :=
  match s with
  | EmptyString => true
  | String c EmptyString => Nat.eqb (Str.code c) 10
  | _ => false
  end.

(** [matches r at_start s k]: [r] matches a prefix of [s] (case
    insensitively) and [k] accepts what follows.  [at_start] tells
    whether [s] is the whole subject. *)
Fixpoint matches (r : regex) (at_start : bool) (s : string)
    (k : bool -> string -> bool) : bool :=
  match r with
  | Empty => k at_start s
  | Lit c =>
      match s with
      | String d s' =>
          Ascii.eqb (Str.to_lower c) (Str.to_lower d) && k false s'
      | EmptyString => false
      end
  | Seq r1 r2 => matches r1 at_start s (fun b s' => matches r2 b s' k)
  | Alt r1 r2 => matches r1 at_start s k || matches r2 at_start s k
  | Opt r1 => matches r1 at_start s k || k at_start s
  | Bol => at_start && k at_start s
  | Eol => at_dollar s && k at_start s
  end.

Fixpoint search_from (r : regex) (at_start : bool) (s : string) : bool :=
  matches r at_start s (fun _ _ => true) ||
  match s with
  | EmptyString => false
  | String _ s' => search_from r false s'
  end.

(** [bool(re.compile(r, re.I).search(s))]. *)
Definition search (r : regex) (s : string) : bool := search_from r true s.

(** *** The numeric patterns

    In the three numeric patterns every repetition is of a character
    class and what follows a repetition never starts with a character of
    that class, so the greedy choice is the only one that can succeed
    and the patterns are read deterministically. *)

Fixpoint span_digits (s : string) : string * string :=
  match s with
  | String c s' =>
      if Str.is_digit c then
        let '(d, r) := span_digits s' in (String c d, r)
      else (EmptyString, s)
  | EmptyString => (EmptyString, EmptyString)
  end.

(** [\d+(?:\.\d+)?] at the start of [s]: the token and the rest. *)
Definition unsigned_number (s : string) : option (string * string) :=
  let '(d, r) := span_digits s in
  if Str.nonempty d then
    match r with
    | String c r' =>
        let '(f, r'') := span_digits r' in
        if Ascii.eqb c "." && Str.nonempty f
        then Some (String.append d (String c f), r'')
        else Some (d, r)
    | EmptyString => Some (d, r)
    end
  else None.

(** [-?\d+(?:\.\d+)?] at the start of [s]. *)
Definition signed_number (s : string) : option (string * string) :=
  match s with
  | String c s' =>
      if Ascii.eqb c "-" then
        match unsigned_number s' with
        | Some (t, r) => Some (String c t, r)
        | None => None
        end
      else unsigned_number s
  | EmptyString => None
  end.

(** [\d+(?:\.\d+)?%?] at the start of [s]: the token. *)
Definition percent_number (s : string) : option string :=
  match unsigned_number s with
  | Some (t, String c _) =>
      if Ascii.eqb c "%" then Some (String.append t (String c EmptyString))
      else Some t
  | Some (t, EmptyString) => Some t
  | None => None
  end.

(** [re.search(r"(\d+(?:\.\d+)?%?)", s)]: [group(1)] of the leftmost match. *)
Fixpoint search_percent_number (s : string) : option string :=
  match percent_number s with
  | Some t => Some t
  | None =>
      match s with
      | EmptyString => None
      | String _ s' => search_percent_number s'
      end
  end.

(** [re.search(r"(-?\d+(?:\.\d+)?)", s)]: [group(1)] of the leftmost match. *)
Fixpoint search_signed_number (s : string) : option string :=
  match signed_number s with
  | Some (t, _) => Some t
  | None =>
      match s with
      | EmptyString => None
      | String _ s' => search_signed_number s'
      end
  end.

(** [re.match(r"^(-?\d+(?:\.\d+)?)\s*%?$", s)]: [group(1)]. *)
Definition match_number_percent (s : string) : option string :=
  match signed_number s with
  | Some (t, r) =>
      let r1 := Str.lstrip r in
      let r2 :=
        match r1 with
        | String c r' => if Ascii.eqb c "%" then r' else r1
        | EmptyString => r1
        end in
      if at_dollar r2 then Some t else None
  | None => None
  end.

End Re.


(** ** The document tree (the part of BeautifulSoup the source uses) *)

Module Bs4.

#[warning="-register-all"]
Inductive node : Type :=
| NavigableString (s : string)
| Tag (name : string) (contents : list node).

(** A node of a document is named by the child indices leading to it
    from the root; the root itself is the [BeautifulSoup] object. *)
Definition path : Type := list nat.

Definition BeautifulSoup (contents : list node) : node :=
  Tag "[document]" contents.

Definition contents_of (n : node) : list node :=
  match n with
  | Tag _ cs => cs
  | NavigableString _ => []
  end.

Definition name_of (n : node) : option string :=
  match n with
  | Tag nm _ => Some nm
  | NavigableString _ => None
  end.

Definition is_tag (n : node) : bool :=
  match n with Tag _ _ => true | NavigableString _ => false end.

Fixpoint at_path (root : node) (p : path) : option node :=
  match p with
  | [] => Some root
  | i :: p' =>
      match nth_error (contents_of root) i with
      | Some c => at_path c p'
      | None => None
      end
  end.

(** [tag.parent]: [None] for the [BeautifulSoup] object only. *)
Definition parent (p : path) : option path :=
  match p with
  | [] => None
  | _ => Some (removelast p)
  end.

(** The strings below a node, in document order. *)
Fixpoint all_strings (n : node) : list string :=
  match n with
  | NavigableString s => [s]
  | Tag _ cs => flat_map all_strings cs
  end.

(** [tag.get_text(separator, strip=...)]: with [strip] every string is
    stripped and the empty ones are dropped before joining. *)
Definition get_text (n : node) (separator : string) (strip : bool) : string :=
  Str.join separator
    (if strip
     then List.filter Str.nonempty (List.map Str.strip (all_strings n))
     else all_strings n).

(** Descendants in document order (depth first), with their paths. *)
Fixpoint descendants (p : path) (n : node) : list (path * node) :=
  match n with
  | NavigableString _ => []
  | Tag _ cs =>
      (fix go (i : nat) (l : list node) : list (path * node) :=
         match l with
         | [] => []
         | c :: l' =>
             (p ++ [i], c) :: descendants (p ++ [i]) c ++ go (S i) l'
         end) 0%nat cs
  end.

Fixpoint first_such {A : Type} (f : A -> bool) (l : list A) : option A :=
  match l with
  | [] => None
  | x :: l' => if f x then Some x else first_such f l'
  end.

(** [soup.find(pred)]: the first tag below the root that [pred] accepts. *)
Definition find (root : node) (pred : node -> bool) : option path :=
  match first_such (fun pn => is_tag (snd pn) && pred (snd pn))
          (descendants [] root) with
  | Some (p, _) => Some p
  | None => None
  end.

Fixpoint first_tag_from (j : nat) (l : list node) : option nat :=
  match l with
  | [] => None
  | Tag _ _ :: _ => Some j
  | NavigableString _ :: l' => first_tag_from (S j) l'
  end.

(** [tag.find_next_sibling()]: the next sibling that is a tag. *)
Definition find_next_sibling (root : node) (p : path) : option path :=
  match parent p with
  | None => None
  | Some pp =>
      match at_path root pp with
      | Some par =>
          let i := List.last p 0%nat in
          match first_tag_from (S i) (skipn (S i) (contents_of par)) with
          | Some j => Some (pp ++ [j])
          | None => None
          end
      | None => None
      end
  end.

(** [node.get_text(...)] for the node at a path of [root]. *)
Definition text_at (root : node) (p : path) (separator : string)
    (strip : bool) : string :=
  match at_path root p with
  | Some n => get_text n separator strip
  | None => EmptyString
  end.

End Bs4.


(** ** Python values, exceptions and effects *)

Inductive exn : Type :=
| RuntimeError (msg : string)
| FetchError (msg : string)
| AttributeError (msg : string)
| ValueError (msg : string)
| OverflowError (msg : string).

Inductive result (A : Type) : Type :=
| Ok (a : A)
| Raise (e : exn).
Arguments Ok {A} a.
Arguments Raise {A} e.

(** The two backends of the source. *)
Inductive scraper : Type := RequestsScraper | PlaywrightScraper.

(** What a fetch of a URL gives: [requests.get]/[raise_for_status] or
    Playwright failing, or a parsed page. *)
Inductive page : Type :=
| Unreachable (why : string)
| Page (soup : Bs4.node).

(** The world a class method runs in: the time slept so far and the
    fetches performed, oldest first. *)
Record world : Type := World {
  clock : Q;
  fetched : list (scraper * string)
}.

Definition M (A : Type) : Type := world -> result A * world.

Definition ret {A : Type} (a : A) : M A := fun w => (Ok a, w).
Definition raise {A : Type} (e : exn) : M A := fun w => (Raise e, w).
Definition bind {A B : Type} (c : M A) (k : A -> M B) : M B :=
  fun w =>
    match c w with
    | (Ok a, w') => k a w'
    | (Raise e, w') => (Raise e, w')
    end.

Notation "'let*' x ':=' c 'in' k" := (bind c (fun x => k))
  (at level 10, x name, c at level 100, k at level 200).

Fixpoint mapM {A B : Type} (f : A -> M B) (l : list A) : M (list B) :=
  match l with
  | [] => ret []
  | x :: l' =>
      let* y := f x in
      let* ys := mapM f l' in
      ret (y :: ys)
  end.

(** What an extractor, [fetch_raw] and [get_value] can hand back.
    [PyFunction soup] is the closure [lambda soup: captured_val] whose
    [captured_val] is bound to [soup]. *)
Inductive pyval : Type :=
| PyNone
| PyStr (s : string)
| PyFloat (q : Q)
| PyFunction (captured_val : Bs4.node).

Definition of_optional (o : option string) : pyval :=
  match o with
  | Some s => PyStr s
  | None => PyNone
  end.

(** [bool(val)] for [val : Optional[str]]. *)
Definition truthy (o : option string) : bool :=
  match o with
  | Some s => Str.nonempty s
  | None => false
  end.

(** [float(tok)] for a token of the shape [-?\d+(?:\.\d+)?]. *)
Fixpoint digits_value (acc : Z) (s : string) : Z :=
  match s with
  | EmptyString => acc
  | String c s' => digits_value (10 * acc + Z.of_nat (Str.code c - 48)) s'
  end.

Definition float (tok : string) : Q :=
  let '(negative, body) :=
    match tok with
    | String c t => if Ascii.eqb c "-" then (true, t) else (false, tok)
    | EmptyString => (false, tok)
    end in
  let '(d, r) := Re.span_digits body in
  let f :=
    match r with
    | String c r' =>
        if Ascii.eqb c "." then fst (Re.span_digits r') else EmptyString
    | EmptyString => EmptyString
    end in
  let n := digits_value 0 (String.append d f) in
  Qred (Qmake (if negative then - n else n)
              (Z.to_pos (10 ^ Z.of_nat (String.length f)))).

(** ** Extractors *)

(** One constructor per closure the two [find_metrics] of the source put
    into their result.  [MetricBase._extractor] may in general be any
    callable (a user's own scraper may build others); those are not
    modelled, and what is proved about [get_value] on every raw string
    ([parse_raw]) does not rest on this type being closed. *)
Inductive extractor : Type :=
| (** [RequestsScraper]: [lambda soup: self.extract_by_selector(soup, sel)] *)
  make_extractor (sel : string)
| (** [PlaywrightScraper]: [lambda _: rs.extract_by_selector(soup, sel)] *)
  make_extractor_playwright (soup : Bs4.node) (sel : string)
| (** [lambda captured_val=val: (lambda soup: captured_val)] *)
  captured_val_lambda (val : string)
| (** [make_lazy_extractor(lr=label_re)] *)
  make_lazy_extractor (lr : Re.regex).

Definition label_tags : list string := ["div"; "span"; "p"; "td"; "th"].

(** The predicate handed to [soup.find], the same at discovery time and
    in the lazy extractor: [tag.name in [...] and tag.get_text(strip=True)
    and label_re.search(tag.get_text(" "))]. *)
Definition is_label (label_re : Re.regex) (tag : Bs4.node) : bool :=
  match Bs4.name_of tag with
  | Some nm => existsb (String.eqb nm) label_tags
  | None => false
  end
  && Str.nonempty (Bs4.get_text tag "" true)
  && Re.search label_re (Bs4.get_text tag " " false).

Definition candidates : list (string * Re.regex) :=
  [ ("Ball possession", Re.lit "ball possession");
    ("Average goals",
       Re.Alt (Re.Seq (Re.lit "avg")
                 (Re.Seq (Re.Alt (Re.Lit ".") Re.Empty) (Re.lit " goals")))
         (Re.Alt (Re.lit "goals per match") (Re.lit "average goals")));
    ("Clean sheets", Re.Seq (Re.lit "clean sheet") (Re.Opt (Re.Lit "s")));
    ("Goals", Re.Seq Re.Bol (Re.Seq (Re.lit "goals") Re.Eol));
    ("Shots on target", Re.lit "on target") ].

(** What the code takes from outside.  [soup.select_one(selector)] is
    soupsieve's; the source only relies on it returning the first
    matching tag or [None].  [web] is what the network serves: the page a
    backend gets for a URL, given how many fetches were performed
    before. *)
Record env : Type := Env {
  select_one : Bs4.node -> string -> option Bs4.path;
  web : scraper -> string -> nat -> page
}.

(** [fetch_soup] of either backend. *)
Definition fetch_soup (E : env) (sc : scraper) (url : string) : M Bs4.node :=
  fun w =>
    let w' := World (clock w) (fetched w ++ [(sc, url)]) in
    match web E sc url (List.length (fetched w)) with
    | Page soup => (Ok soup, w')
    | Unreachable why => (Raise (FetchError why), w')
    end.

Definition extract_by_selector (E : env) (soup : Bs4.node)
    (selector : string) : option string :=
  match select_one E soup selector with
  | None => None
  | Some el => Some (Bs4.text_at soup el "" true)
  end.

(** Lines 91-105: the value next to a label node, at discovery time. *)
Definition resolve_value (soup : Bs4.node) (label_node : Bs4.path)
    : option string :=
  let val : option string := None in
  let val :=
    match Bs4.find_next_sibling soup label_node with
    | Some sib => Some (Bs4.text_at soup sib "" true)
    | None => val
    end in
  let val :=
    match negb (truthy val), Bs4.parent label_node with
    | true, Some parent =>
        match Bs4.find_next_sibling soup parent with
        | Some nextp => Some (Bs4.text_at soup nextp "" true)
        | None => val
        end
    | _, _ => val
    end in
  if negb (truthy val) then
    let tail :=
      String.append (Bs4.text_at soup label_node " " false)
        (String.append " "
           match Bs4.parent label_node with
           | Some parent => Bs4.text_at soup parent " " false
           | None => EmptyString
           end) in
    Re.search_percent_number tail
  else val.

(** Lines 112-124: the body of the lazy extractor. *)
Definition lazy_extract (lr : Re.regex) (soup : Bs4.node) : option string :=
  match Bs4.find soup (is_label lr) with
  | None => None
  | Some node =>
      match Bs4.find_next_sibling soup node with
      | Some sib => Some (Bs4.text_at soup sib "" true)
      | None =>
          let fallback :=
            Re.search_percent_number (Bs4.text_at soup node " " false) in
          match Bs4.parent node with
          | Some parent =>
              match Bs4.find_next_sibling soup parent with
              | Some nextp => Some (Bs4.text_at soup nextp "" true)
              | None => fallback
              end
          | None => fallback
          end
      end
  end.

(** [extractor(soup)]. *)
Definition call_extractor (E : env) (e : extractor) (soup : Bs4.node)
    : pyval :=
  match e with
  | make_extractor sel => of_optional (extract_by_selector E soup sel)
  | make_extractor_playwright soup0 sel =>
      of_optional (extract_by_selector E soup0 sel)
  | captured_val_lambda _ => PyFunction soup
  | make_lazy_extractor lr => of_optional (lazy_extract lr soup)
  end.

(** Lines 87-126: one pass over [candidates]. *)
Fixpoint discover (soup : Bs4.node) (cands : list (string * Re.regex))
    : list (string * extractor) :=
  match cands with
  | [] => []
  | (label_text, label_re) :: rest =>
      match Bs4.find soup (is_label label_re) with
      | Some label_node =>
          match resolve_value soup label_node with
          | Some val =>
              if Str.nonempty val
              then (label_text, captured_val_lambda val) :: discover soup rest
              else (label_text, make_lazy_extractor label_re) :: discover soup rest
          | None =>
              (label_text, make_lazy_extractor label_re) :: discover soup rest
          end
      | None => discover soup rest
      end
  end.

(** A Python [dict] with string keys, in insertion order. *)
Definition dict (V : Type) : Type := list (string * V).

Definition RequestsScraper_find_metrics (E : env) (url : string)
    (metric_selectors : option (dict string)) : M (dict extractor) :=
  match metric_selectors with
  | Some ((_ :: _) as sels) =>
      ret (List.map (fun ns => (fst ns, make_extractor (snd ns))) sels)
  | _ =>
      let* soup := fetch_soup E RequestsScraper url in
      ret (discover soup candidates)
  end.

Definition PlaywrightScraper_find_metrics (E : env) (url : string)
    (metric_selectors : option (dict string)) : M (dict extractor) :=
  let* soup := fetch_soup E PlaywrightScraper url in
  match metric_selectors with
  | Some ((_ :: _) as sels) =>
      ret (List.map
             (fun ns => (fst ns, make_extractor_playwright soup (snd ns))) sels)
  | _ => RequestsScraper_find_metrics E url None
  end.

Definition find_metrics (E : env) (sc : scraper)
    : string -> option (dict string) -> M (dict extractor) :=
  match sc with
  | RequestsScraper => RequestsScraper_find_metrics E
  | PlaywrightScraper => PlaywrightScraper_find_metrics E
  end.

(** ** [MetricBase] *)

(** A generated metric class: the class attributes [MetricBase] reads. *)
Record metric_class : Type := MetricClass {
  metric_name : string;
  sofascore_url : option string;
  _extractor : option extractor;
  _scraper_instance : option scraper
}.

(** [bool(url)] for [url : Optional[str]]: [None] and the empty string
    both count as not set. *)
Definition url_set (url : option string) : option string :=
  match url with
  | Some u => if Str.nonempty u then Some u else None
  | None => None
  end.

Definition _get_scraper (cls : metric_class) : scraper :=
  match _scraper_instance cls with
  | Some sc => sc
  | None => RequestsScraper
  end.

Definition fetch_raw (E : env) (cls : metric_class) : M pyval :=
  match url_set (sofascore_url cls) with
  | None => raise (RuntimeError "sofascore_url not set on metric class")
  | Some url =>
      match _extractor cls with
      | None => raise (RuntimeError "extractor not provided for metric")
      | Some extractor =>
          let scraper := _get_scraper cls in
          let* soup := fetch_soup E scraper url in
          ret (call_extractor E extractor soup)
      end
  end.

(** Lines 209-222 of [get_value], for a raw value that is a [str]. *)
Definition parse_raw (raw : string) : pyval :=
  let raw := Str.strip raw in
  match Re.match_number_percent raw with
  | Some g =>
      let val := float g in
      if Str.endswith raw "%" then PyFloat val else PyFloat val
  | None =>
      match Re.search_signed_number raw with
      | Some g => PyFloat (float g)
      | None => PyStr raw
      end
  end.

Definition get_value (E : env) (cls : metric_class) : M pyval :=
  let* raw := fetch_raw E cls in
  match raw with
  | PyNone => ret PyNone
  | PyStr raw => ret (parse_raw raw)
  | PyFloat _ =>
      raise (AttributeError "'float' object has no attribute 'strip'")
  | PyFunction _ =>
      raise (AttributeError "'function' object has no attribute 'strip'")
  end.

(** A Python [float], as [refresh] is handed one: a finite value (taken
    as the rational it denotes), an infinity or a NaN. *)
Inductive pyfloat : Type :=
| Finite (q : Q)
| Infinity (negative : bool)
| NaN.

(** [bool(x)] of a float: false for zero only. *)
Definition float_truthy (x : pyfloat) : bool :=
  match x with
  | Finite q => negb (Qeq_bool q 0)
  | Infinity _ | NaN => true
  end.

(** The length in nanoseconds fits a signed 64-bit count.  (CPython
    rounds the product in double precision; a length at the very bound,
    some 9.22e9 seconds, is counted as not fitting.) *)
Definition fits_nanoseconds (secs : Q) : bool :=
  Qle_bool (- (9223372036854775808 # 1)) (secs * (1000000000 # 1)) &&
  negb (Qle_bool (9223372036854775808 # 1) (secs * (1000000000 # 1))).

(** [time.sleep(secs)], as CPython runs it: the length is first
    converted to nanoseconds, where a NaN is a [ValueError] and a count
    that does not fit is an [OverflowError]; a negative length is refused
    after that.  Otherwise the time passes. *)
Definition time_sleep (secs : pyfloat) : M unit :=
  fun w =>
    match secs with
    | NaN => (Raise (ValueError "Invalid value NaN (not a number)"), w)
    | Infinity _ =>
        (Raise (OverflowError "timestamp too large to convert to C _PyTime_t"),
         w)
    | Finite q =>
        if negb (fits_nanoseconds q) then
          (Raise (OverflowError
                    "timestamp too large to convert to C _PyTime_t"), w)
        else if Qle_bool 0 q
        then (Ok tt, World (clock w + q)%Q (fetched w))
        else (Raise (ValueError "sleep length must be non-negative"), w)
    end.

Definition refresh (E : env) (cls : metric_class) (delay_seconds : pyfloat)
    : M pyval :=
  let* _ :=
    if float_truthy delay_seconds then time_sleep delay_seconds
    else ret tt in
  fetch_raw E cls.

(** ** [MetricMeta.__new__] *)

(** The class under construction: the metric classes attached to it by
    [setattr], by attribute name, and its [_discovered_metrics]. *)
Record owner_class : Type := OwnerClass {
  attrs : gmap string metric_class;
  _discovered_metrics : option (dict metric_class)
}.

(** [re.sub(r"[^0-9a-zA-Z]+", "", name.title())]. *)
Definition stem (name : string) : string :=
  Str.filter Str.is_alnum (Str.title name).

(** Lines 279-280. *)
Definition class_name_of (metric_name : string) : string :=
  let class_name :=
    if Str.nonempty (stem metric_name) then stem metric_name else "Metric" in
  if Str.endswith class_name "Metric" then class_name
  else String.append class_name "Metric".

Definition setattr (cls : owner_class) (name : string) (v : metric_class)
    : owner_class :=
  OwnerClass (<[name := v]> (attrs cls)) (_discovered_metrics cls).

Definition getattr (cls : owner_class) (name : string) : M metric_class :=
  match attrs cls !! name with
  | Some v => ret v
  | None =>
      raise (AttributeError
               (String.append "type object has no attribute '"
                  (String.append name "'")))
  end.

(** Lines 277-292: one generated class per discovered metric. *)
Definition attach (sofascore_url : string) (scraper : scraper)
    (cls : owner_class) (entry : string * extractor) : owner_class :=
  let '(metric_name, extractor) := entry in
  let metric_cls :=
    MetricClass metric_name (Some sofascore_url) (Some extractor)
      (Some scraper) in
  setattr cls (class_name_of metric_name) metric_cls.

(** Line 295: the name-to-class mapping. *)
Definition discovered_metrics (cls : owner_class) (keys : list string)
    : M (dict metric_class) :=
  mapM (fun k =>
          let* c := getattr cls (String.append (stem k) "Metric") in
          ret (k, c))
       keys.

(** Lines 277-295, from the result of [find_metrics] on. *)
Definition register (sofascore_url : string) (scraper : scraper)
    (discovered : dict extractor) (cls : owner_class) : M owner_class :=
  let cls := fold_left (attach sofascore_url scraper) discovered cls in
  let* mapping := discovered_metrics cls (List.map fst discovered) in
  ret (OwnerClass (attrs cls) (Some mapping)).

(** [MetricMeta.__new__], for a class body that defines no metric class
    of its own.  Both backends have a [find_metrics], so the [hasattr]
    check passes. *)
Definition MetricMeta_new (E : env) (sofascore_url : option string)
    (scraper : option scraper) (metric_selectors : option (dict string))
    : M owner_class :=
  let cls := OwnerClass ∅ None in
  match url_set sofascore_url with
  | None => ret cls
  | Some url =>
      let scraper :=
        match scraper with
        | Some sc => sc
        | None => RequestsScraper
        end in
      let* discovered := find_metrics E scraper url metric_selectors in
      register url scraper discovered cls
  end.


(** ** Sample documents, a sample selector engine and sample networks *)

Module Sample.

Import Bs4.

(** CSS type selectors only: the first tag with that name. *)
Definition select_tag (soup : node) (selector : string) : option path :=
  find soup (fun n =>
               match name_of n with
               | Some nm => String.eqb nm selector
               | None => false
               end).

Definition row (cells : list node) : node := Tag "tr" cells.
Definition cell (text : list string) : node :=
  Tag "td" (List.map NavigableString text).

(** [<table><tr><td>Ball possession</td><td>value</td></tr></table>] *)
Definition possession (value : list string) : node :=
  BeautifulSoup [Tag "table" [row [cell ["Ball possession"]; cell value]]].

(** A label with a sibling value and a parent whose sibling holds another. *)
Definition sibling_and_parent_sibling : node :=
  BeautifulSoup
    [Tag "table" [row [cell ["Ball possession"]; cell ["61%"]];
                  row [cell ["55%"]]]].

(** [<section><p>Clean sheets 9</p></section>] *)
Definition clean_sheets_inline : node :=
  BeautifulSoup [Tag "section" [Tag "p" [NavigableString "Clean sheets 9"]]].

(** [<section><p>Clean sheets 9</p><p></p></section>] *)
Definition clean_sheets_empty_sibling : node :=
  BeautifulSoup
    [Tag "section" [Tag "p" [NavigableString "Clean sheets 9"]; Tag "p" []]].

(** [<section><b>9</b><p>Clean sheets</p></section>] *)
Definition clean_sheets_number_in_parent : node :=
  BeautifulSoup
    [Tag "section" [Tag "b" [NavigableString "9"];
                    Tag "p" [NavigableString "Clean sheets"]]].

(** [<p>text</p>] *)
Definition paragraph (text : string) : node :=
  BeautifulSoup [Tag "p" [NavigableString text]].

(** A network that serves the given pages one fetch after the other. *)
Definition serve (pages : list node) : scraper -> string -> nat -> page :=
  fun _ _ n =>
    match nth_error pages n with
    | Some soup => Page soup
    | None => Unreachable "timed out"
    end.

(** Type selectors over pages served in turn. *)
Definition env_of (pages : list node) : env := Env select_tag (serve pages).

Definition w0 : world := World 0 [].
Definition url : string := "https://www.sofascore.com/team/football/x/1".

(** A metric class as [MetricMeta] generates it. *)
Definition metric (name : string) (e : extractor) (sc : scraper)
    : metric_class :=
  MetricClass name (Some url) (Some e) (Some sc).

Definition ball_possession_re : Re.regex := Re.lit "ball possession".
Definition clean_sheets_re : Re.regex :=
  Re.Seq (Re.lit "clean sheet") (Re.Opt (Re.Lit "s")).
End Sample.

(** ** The specification's readings, to compare the code with *)

(** The whole string is an optional minus sign, digits, an optional
    decimal fraction and an optional trailing percent sign: its numeric
    part. *)
Definition whole_number (s : string) : option string :=
  match Re.signed_number s with
  | Some (t, r) =>
      if String.eqb r EmptyString || String.eqb r "%" then Some t else None
  | None => None
  end.

(** [get_value] as the specification words it: the whole trimmed string
    as a number, else the first numeric token anywhere in the string,
    else the raw string unchanged; no value stays no value. *)
Definition get_value_spec (raw : option string) : pyval :=
  match raw with
  | None => PyNone
  | Some raw =>
      match whole_number (Str.strip raw) with
      | Some t => PyFloat (float t)
      | None =>
          match Re.search_signed_number raw with
          | Some t => PyFloat (float t)
          | None => PyStr raw
          end
      end
  end.

(** The same reading with its last case amended: what comes back when
    the string holds no number is the trimmed string. *)
Definition get_value_amended (raw : option string) : pyval :=
  match raw with
  | None => PyNone
  | Some raw =>
      match whole_number (Str.strip raw) with
      | Some t => PyFloat (float t)
      | None =>
          match Re.search_signed_number raw with
          | Some t => PyFloat (float t)
          | None => PyStr (Str.strip raw)
          end
      end
  end.

(** The identifier as the specification words it: non-alphanumeric
    characters stripped from the title-cased name, the suffix appended
    only if not already there. *)
Definition identifier_spec (name : string) : string :=
  if Str.endswith (stem name) "Metric" then stem name
  else String.append (stem name) "Metric".

(** The fallback chain as the specification words it: the text of the
    next sibling, else the text of the parent's next sibling, else the
    first numeric token of the label's text followed by its parent's;
    a step succeeds when it yields a non-empty text. *)
Definition resolve_chain_spec (soup : Bs4.node) (label_node : Bs4.path)
    : option string :=
  let text_of (o : option Bs4.path) : option string :=
    match o with
    | Some p =>
        let t := Bs4.text_at soup p EmptyString true in
        if Str.nonempty t then Some t else None
    | None => None
    end in
  match text_of (Bs4.find_next_sibling soup label_node) with
  | Some v => Some v
  | None =>
      match text_of (match Bs4.parent label_node with
                     | Some parent => Bs4.find_next_sibling soup parent
                     | None => None
                     end) with
      | Some v => Some v
      | None =>
          Re.search_percent_number
            (String.append (Bs4.text_at soup label_node " " false)
               (String.append " "
                  match Bs4.parent label_node with
                  | Some parent => Bs4.text_at soup parent " " false
                  | None => EmptyString
                  end))
      end
  end.

(** The extractor discovery installs for a label node: bound when a
    value resolved, lazy otherwise (lines 107-126). *)
Definition discovered_extractor (soup : Bs4.node) (label_re : Re.regex)
    (label_node : Bs4.path) : extractor :=
  match resolve_value soup label_node with
  | Some val =>
      if Str.nonempty val then captured_val_lambda val
      else make_lazy_extractor label_re
  | None => make_lazy_extractor label_re
  end.

(** ** Shapes of patterns and of the document walk, for the proofs *)

(** A pattern without [^] and [$]. *)
Fixpoint anchor_free (r : Re.regex) : bool :=
  match r with
  | Re.Bol | Re.Eol => false
  | Re.Seq r1 r2 | Re.Alt r1 r2 => anchor_free r1 && anchor_free r2
  | Re.Opt r1 => anchor_free r1
  | Re.Empty | Re.Lit _ => true
  end.

(** The descendants contributed by the children [l] of a tag at [p],
    the first of them being child number [i]: the inner loop of
    [Bs4.descendants]. *)
Definition children_descendants (p : Bs4.path)
    : nat -> list Bs4.node -> list (Bs4.path * Bs4.node) :=
  fix go (i : nat) (l : list Bs4.node) : list (Bs4.path * Bs4.node) :=
    match l with
    | [] => []
    | c :: l' =>
        (p ++ [i], c) :: Bs4.descendants (p ++ [i]) c ++ go (S i) l'
    end.

(** * Properties *)

(** ** Stripped strings: a clean string is left alone by [strip] *)

Module StrFacts.

Import Str.

Lemma lstrip_head s : head_nonspace s = true -> lstrip s = s.
Proof.
  destruct s as [|c s']; simpl; [reflexivity|].
  destruct (is_space c); [discriminate | reflexivity].
Qed.

Lemma rstrip_last s : last_nonspace s = true -> rstrip s = s.
Proof.
  induction s as [|c s' IH]; [reflexivity|].
  destruct s' as [|d t].
  - simpl. destruct (is_space c); [discriminate | reflexivity].
  - intros H. change (last_nonspace (String d t) = true) in H.
    change (rstrip (String c (String d t)))
      with (match rstrip (String d t) with
            | EmptyString =>
                if is_space c then EmptyString else String c EmptyString
            | r => String c r
            end).
    rewrite (IH H). reflexivity.
Qed.

Lemma clean_strip s : clean s = true -> strip s = s.
Proof.
  unfold clean, strip. intros H. apply andb_prop in H as [H1 H2].
  rewrite (lstrip_head _ H1). apply rstrip_last, H2.
Qed.

Lemma head_lstrip s : head_nonspace (lstrip s) = true.
Proof.
  induction s as [|c s' IH]; [reflexivity|]. simpl.
  destruct (is_space c) eqn:E; [exact IH | simpl; rewrite E; reflexivity].
Qed.

Lemma last_rstrip s : last_nonspace (rstrip s) = true.
Proof.
  induction s as [|c s' IH]; [reflexivity|]. simpl.
  destruct (rstrip s') as [|d t] eqn:E.
  - destruct (is_space c) eqn:Ec; simpl; [reflexivity | rewrite Ec; reflexivity].
  - exact IH.
Qed.

Lemma head_rstrip s : head_nonspace s = true -> head_nonspace (rstrip s) = true.
Proof.
  destruct s as [|c s']; [reflexivity|]. simpl. intros H.
  destruct (rstrip s'); [|exact H].
  destruct (is_space c) eqn:E; [discriminate | simpl; rewrite E; reflexivity].
Qed.

Lemma clean_of_strip s : clean (strip s) = true.
Proof.
  unfold clean, strip. rewrite head_rstrip by apply head_lstrip.
  rewrite last_rstrip. reflexivity.
Qed.

Lemma head_append a b :
  nonempty a = true -> head_nonspace (String.append a b) = head_nonspace a.
Proof. destruct a; [discriminate | reflexivity]. Qed.

Lemma last_append a b :
  nonempty b = true -> last_nonspace (String.append a b) = last_nonspace b.
Proof.
  intros Hb. induction a as [|c a IH]; [reflexivity|].
  change (String.append (String c a) b) with (String c (String.append a b)).
  destruct (String.append a b) as [|d t] eqn:E.
  - destruct a; [change (b = EmptyString) in E; rewrite E in Hb |]; discriminate.
  - exact IH.
Qed.

Lemma nonempty_append_l a b :
  nonempty a = true -> nonempty (String.append a b) = true.
Proof. destruct a; [discriminate | reflexivity]. Qed.

(** Joining non-empty clean pieces with the empty separator. *)
Lemma clean_join (l : list string) :
  Forall (fun x => nonempty x = true /\ clean x = true) l ->
  clean (join EmptyString l) = true /\
  (l <> [] -> nonempty (join EmptyString l) = true).
Proof.
  induction 1 as [|x l [Hx Hc] Hl IH]; [split; [reflexivity | congruence]|].
  destruct l as [|y l'].
  - simpl. split; [exact Hc | intros _; exact Hx].
  - change (join EmptyString (x :: y :: l'))
      with (String.append x (join EmptyString (y :: l'))).
    destruct IH as [IH1 IH2]. specialize (IH2 ltac:(discriminate)).
    apply andb_prop in Hc as [Hc1 Hc2]. apply andb_prop in IH1 as [IH1 IH3].
    split.
    + unfold clean. rewrite head_append, last_append by assumption.
      rewrite Hc1, IH3. reflexivity.
    + intros _. apply nonempty_append_l, Hx.
Qed.

Lemma nospace_clean s : nospace s = true -> clean s = true.
Proof.
  unfold clean. intros H. apply andb_true_intro. split.
  - destruct s; [reflexivity|]. simpl in H. apply andb_prop in H as [H _]. exact H.
  - induction s as [|c s' IH]; [reflexivity|].
    simpl in H. apply andb_prop in H as [H1 H2].
    destruct s'; [exact H1 | exact (IH H2)].
Qed.

Lemma nospace_append a b :
  nospace a = true -> nospace b = true -> nospace (String.append a b) = true.
Proof.
  intros Ha Hb. induction a as [|c a IH]; [exact Hb|].
  change (negb (is_space c) && nospace (String.append a b) = true).
  simpl in Ha. apply andb_prop in Ha as [H1 H2]. rewrite H1, (IH H2). reflexivity.
Qed.

Lemma digit_nonspace c : is_digit c = true -> is_space c = false.
Proof.
  unfold is_digit, is_space, in_range. intros H.
  apply andb_prop in H as [H1 H2].
  apply Nat.leb_le in H1. apply Nat.leb_le in H2.
  apply orb_false_intro; apply andb_false_iff.
  - right. apply Nat.leb_gt. lia.
  - right. apply Nat.leb_gt. lia.
Qed.

End StrFacts.

(** ** The numeric tokens hold no whitespace *)

Module ReFacts.

Import Str StrFacts Re.

Lemma span_digits_nospace s d r : span_digits s = (d, r) -> nospace d = true.
Proof.
  revert d r. induction s as [|c s' IH]; intros d r H; simpl in H.
  - inversion H. reflexivity.
  - destruct (is_digit c) eqn:Ec.
    + destruct (span_digits s') as [d' r'] eqn:E. inversion H; subst.
      simpl. rewrite (digit_nonspace _ Ec), (IH _ _ eq_refl). reflexivity.
    + inversion H. reflexivity.
Qed.

Lemma unsigned_number_nospace s t r :
  unsigned_number s = Some (t, r) -> nospace t = true.
Proof.
  unfold unsigned_number.
  destruct (span_digits s) as [d r0] eqn:Ed.
  pose proof (span_digits_nospace _ _ _ Ed) as Hd.
  destruct (nonempty d); [|discriminate].
  destruct r0 as [|c r']; [intros H; inversion H; subst; exact Hd|].
  destruct (span_digits r') as [f r''] eqn:Ef.
  pose proof (span_digits_nospace _ _ _ Ef) as Hf.
  destruct (Ascii.eqb c "." && nonempty f) eqn:E; intros H; inversion H; subst;
    [|exact Hd].
  apply andb_prop in E as [E _]. apply Ascii.eqb_eq in E. subst c.
  apply nospace_append; [exact Hd|]. simpl. exact Hf.
Qed.

Lemma percent_number_nospace s t : percent_number s = Some t -> nospace t = true.
Proof.
  unfold percent_number.
  destruct (unsigned_number s) as [[t0 r]|] eqn:E; [|discriminate].
  pose proof (unsigned_number_nospace _ _ _ E) as H0.
  destruct r as [|c r']; [intros H; inversion H; subst; exact H0|].
  destruct (Ascii.eqb c "%") eqn:Ec; intros H; inversion H; subst; [|exact H0].
  apply Ascii.eqb_eq in Ec. subst c. apply nospace_append; [exact H0 | reflexivity].
Qed.

Lemma search_percent_number_clean s t :
  search_percent_number s = Some t -> clean t = true.
Proof.
  induction s as [|c s' IH]; simpl.
  - discriminate.
  - destruct (percent_number (String c s')) eqn:E; [|exact IH].
    intros H; inversion H; subst.
    apply nospace_clean, (percent_number_nospace _ _ E).
Qed.

(** The leftmost match of the signed pattern starts at the first
    position where the pattern matches. *)
Lemma search_signed_number_unfold s :
  search_signed_number s =
  match signed_number s with
  | Some (t, _) => Some t
  | None =>
      match s with
      | EmptyString => None
      | String _ s' => search_signed_number s'
      end
  end.
Proof. destruct s; reflexivity. Qed.

End ReFacts.

(** ** Paths and descendants *)

Module Bs4Facts.

Import Bs4.

Lemma node_induction (P : node -> Prop) :
  (forall s, P (NavigableString s)) ->
  (forall nm cs, Forall P cs -> P (Tag nm cs)) ->
  forall n, P n.
Proof.
  intros Hs Ht. fix IH 1. intros [s|nm cs]; [apply Hs|].
  apply Ht. induction cs as [|c cs IHcs]; constructor; [apply IH | exact IHcs].
Qed.

(** Every descendant is the node its path leads to. *)
Lemma descendants_at_path n :
  forall p0 q m, In (q, m) (descendants p0 n) ->
  exists r, q = p0 ++ r /\ at_path n r = Some m.
Proof.
  induction n as [s|nm cs IHcs] using node_induction; intros p0 q m Hin.
  - destruct Hin.
  - simpl in Hin.
    assert (G : forall l i,
      Forall (fun n => forall p0 q m, In (q, m) (descendants p0 n) ->
                exists r, q = p0 ++ r /\ at_path n r = Some m) l ->
      In (q, m)
        ((fix go (i : nat) (l : list node) : list (path * node) :=
            match l with
            | [] => []
            | c :: l' =>
                (p0 ++ [i], c) :: descendants (p0 ++ [i]) c ++ go (S i) l'
            end) i l) ->
      exists k c r, nth_error l k = Some c /\
                    q = p0 ++ (i + k)%nat :: r /\ at_path c r = Some m).
    { clear. induction l as [|c l' IHl]; intros i HF Hin; [destruct Hin|].
      inversion HF as [|? ? Hc Hl']; subst.
      destruct Hin as [Heq | Hin].
      - inversion Heq; subst. exists 0%nat, m, []. rewrite Nat.add_0_r.
        split; [|split]; reflexivity.
      - apply in_app_or in Hin as [Hin | Hin].
        + destruct (Hc _ _ _ Hin) as [r [Hq Hr]].
          exists 0%nat, c, r. rewrite Nat.add_0_r. rewrite Hq, <- app_assoc.
          split; [|split]; [reflexivity | reflexivity | exact Hr].
        + destruct (IHl _ Hl' Hin) as [k [c' [r [Hk [Hq Hr]]]]].
          exists (S k), c', r. rewrite Nat.add_succ_r.
          split; [|split]; assumption. }
    destruct (G cs 0%nat IHcs Hin) as [k [c [r [Hk [Hq Hr]]]]].
    exists (k :: r). split; [exact Hq|]. simpl. rewrite Hk. exact Hr.
Qed.

Lemma first_such_some {A : Type} (f : A -> bool) l x :
  first_such f l = Some x -> In x l /\ f x = true.
Proof.
  induction l as [|y l IH]; simpl; [discriminate|].
  destruct (f y) eqn:E.
  - intros H; inversion H; subst. split; [left; reflexivity | exact E].
  - intros H. destruct (IH H). split; [right|]; assumption.
Qed.

(** What [find] returns is a tag of the document that the predicate accepts. *)
Lemma find_some root pred p :
  find root pred = Some p ->
  exists n, at_path root p = Some n /\ is_tag n = true /\ pred n = true.
Proof.
  unfold find.
  destruct (first_such _ (descendants [] root)) as [[q m]|] eqn:E; [|discriminate].
  intros H; inversion H; subst q.
  apply first_such_some in E as [Hin Hf]. simpl in Hf.
  apply andb_prop in Hf as [Ht Hp].
  destruct (descendants_at_path _ _ _ _ Hin) as [r [Hq Hr]]. simpl in Hq. subst r.
  exists m. split; [|split]; assumption.
Qed.

Lemma stripped_pieces_clean (l : list string) :
  Forall (fun x => Str.nonempty x = true /\ Str.clean x = true)
    (List.filter Str.nonempty (List.map Str.strip l)).
Proof.
  induction l as [|x l IH]; simpl; [constructor|].
  destruct (Str.nonempty (Str.strip x)) eqn:E; [|exact IH].
  constructor; [split; [exact E | apply StrFacts.clean_of_strip] | exact IH].
Qed.

(** [get_text(strip=True)] has no whitespace at either end. *)
Lemma get_text_strip_clean n : Str.clean (get_text n EmptyString true) = true.
Proof. unfold get_text. apply StrFacts.clean_join, stripped_pieces_clean. Qed.

Lemma text_at_strip_clean root p :
  Str.clean (text_at root p EmptyString true) = true.
Proof.
  unfold text_at. destruct (at_path root p); [apply get_text_strip_clean | reflexivity].
Qed.

End Bs4Facts.

Section Properties.

Variable E : env.

(** *** Extractors, one lambda at a time *)

Lemma call_make_extractor sel soup :
  call_extractor E (make_extractor sel) soup
  = of_optional (extract_by_selector E soup sel).
Proof. reflexivity. Qed.

Lemma call_make_extractor_playwright soup0 sel soup :
  call_extractor E (make_extractor_playwright soup0 sel) soup
  = of_optional (extract_by_selector E soup0 sel).
Proof. reflexivity. Qed.

Lemma call_captured_val_lambda val soup :
  call_extractor E (captured_val_lambda val) soup = PyFunction soup.
Proof. reflexivity. Qed.

Lemma extract_by_selector_clean soup sel raw :
  extract_by_selector E soup sel = Some raw -> Str.clean raw = true.
Proof.
  unfold extract_by_selector. destruct (select_one E soup sel); [|discriminate].
  intros H; inversion H. apply Bs4Facts.text_at_strip_clean.
Qed.

Lemma lazy_extract_clean lr soup raw :
  lazy_extract lr soup = Some raw -> Str.clean raw = true.
Proof.
  unfold lazy_extract.
  destruct (Bs4.find soup (is_label lr)) as [node|]; [|discriminate].
  destruct (Bs4.find_next_sibling soup node) as [sib|].
  { intros H; inversion H. apply Bs4Facts.text_at_strip_clean. }
  destruct (Bs4.parent node) as [parent|];
    [destruct (Bs4.find_next_sibling soup parent) as [nextp|]|];
    try (intros H; inversion H; apply Bs4Facts.text_at_strip_clean);
    apply ReFacts.search_percent_number_clean.
Qed.

(** Every string an extractor of the two backends returns is stripped. *)
Lemma call_extractor_clean e soup raw :
  call_extractor E e soup = PyStr raw -> Str.clean raw = true.
Proof.
  destruct e as [sel|soup0 sel|val|lr]; simpl.
  - destruct (extract_by_selector E soup sel) eqn:Es; simpl; [|discriminate].
    intros H; inversion H; subst. apply (extract_by_selector_clean _ _ _ Es).
  - destruct (extract_by_selector E soup0 sel) eqn:Es; simpl; [|discriminate].
    intros H; inversion H; subst. apply (extract_by_selector_clean _ _ _ Es).
  - discriminate.
  - destruct (lazy_extract lr soup) eqn:El; simpl; [|discriminate].
    intros H; inversion H; subst. apply (lazy_extract_clean _ _ _ El).
Qed.

(** [fetch_raw], step by step. *)
Lemma fetch_raw_unfold cls w :
  fetch_raw E cls w =
  match url_set (sofascore_url cls), _extractor cls with
  | None, _ => (Raise (RuntimeError "sofascore_url not set on metric class"), w)
  | Some _, None => (Raise (RuntimeError "extractor not provided for metric"), w)
  | Some url, Some e =>
      let w' := World (clock w) (fetched w ++ [(_get_scraper cls, url)]) in
      match web E (_get_scraper cls) url (List.length (fetched w)) with
      | Page soup => (Ok (call_extractor E e soup), w')
      | Unreachable why => (Raise (FetchError why), w')
      end
  end.
Proof.
  unfold fetch_raw.
  destruct (url_set (sofascore_url cls)) as [url|]; [|reflexivity].
  destruct (_extractor cls) as [e|]; [|reflexivity].
  unfold bind, fetch_soup, ret.
  destruct (web E (_get_scraper cls) url (List.length (fetched w))); reflexivity.
Qed.

Lemma fetch_raw_clean cls w raw w' :
  fetch_raw E cls w = (Ok (PyStr raw), w') -> Str.clean raw = true.
Proof.
  rewrite fetch_raw_unfold.
  destruct (url_set (sofascore_url cls)) as [url|]; [|discriminate].
  destruct (_extractor cls) as [e|]; [|discriminate].
  destruct (web E (_get_scraper cls) url (List.length (fetched w)));
    [discriminate|].
  intros H; inversion H. eapply call_extractor_clean; eassumption.
Qed.

Lemma whole_number_match s t :
  whole_number s = Some t -> Re.match_number_percent s = Some t.
Proof.
  unfold whole_number, Re.match_number_percent.
  destruct (Re.signed_number s) as [[t0 r]|]; [|discriminate].
  destruct r as [|c r']; [intros H; exact H|].
  cbn [String.eqb orb].
  destruct (Ascii.eqb c "%") eqn:Ec; [|discriminate].
  apply Ascii.eqb_eq in Ec. subst c.
  destruct r' as [|c' r'']; [intros H; exact H | discriminate].
Qed.

Lemma match_number_search s t :
  Re.match_number_percent s = Some t -> Re.search_signed_number s = Some t.
Proof.
  rewrite ReFacts.search_signed_number_unfold. unfold Re.match_number_percent.
  destruct (Re.signed_number s) as [[t0 r]|]; [|discriminate].
  match goal with |- context [Re.at_dollar ?x] => destruct (Re.at_dollar x) end;
    [intros H; exact H | discriminate].
Qed.

(** On a stripped string the source's [get_value] body is the
    specification's: a whole match of the source's pattern that is not
    one of the specification's (blanks before the percent sign) yields
    the same number through the embedded-token rule. *)
Lemma parse_raw_spec raw :
  Str.strip raw = raw -> parse_raw raw = get_value_spec (Some raw).
Proof.
  intros Hs. unfold parse_raw, get_value_spec. rewrite Hs.
  destruct (whole_number raw) as [t|] eqn:W.
  - rewrite (whole_number_match _ _ W).
    destruct (Str.endswith raw "%"); reflexivity.
  - destruct (Re.match_number_percent raw) as [g|] eqn:G; [|reflexivity].
    rewrite (match_number_search _ _ G).
    destruct (Str.endswith raw "%"); reflexivity.
Qed.

(** The source trims before it parses and hands back the trimmed string. *)
Lemma parse_raw_strip raw : parse_raw (Str.strip raw) = parse_raw raw.
Proof.
  unfold parse_raw.
  rewrite (StrFacts.clean_strip _ (StrFacts.clean_of_strip raw)). reflexivity.
Qed.

(** C7. [fetch_raw] raises its configuration error exactly when the URL
    or the extractor is not set, and then performs no fetch; with both
    set it performs one fetch, fails with the fetcher's error when the
    fetcher fails and otherwise returns the extractor applied to the
    page just fetched. *)
Theorem fetch_raw_contract cls w :
  ((exists msg, fst (fetch_raw E cls w) = Raise (RuntimeError msg)) <->
   (url_set (sofascore_url cls) = None \/ _extractor cls = None)) /\
  ((url_set (sofascore_url cls) = None \/ _extractor cls = None) ->
   snd (fetch_raw E cls w) = w) /\
  (forall url e,
     url_set (sofascore_url cls) = Some url -> _extractor cls = Some e ->
     fetched (snd (fetch_raw E cls w))
     = fetched w ++ [(_get_scraper cls, url)] /\
     match web E (_get_scraper cls) url (List.length (fetched w)) with
     | Unreachable why => fst (fetch_raw E cls w) = Raise (FetchError why)
     | Page soup => fst (fetch_raw E cls w) = Ok (call_extractor E e soup)
     end).
Proof.
  rewrite fetch_raw_unfold.
  destruct (url_set (sofascore_url cls)) as [url|] eqn:Hu;
    [destruct (_extractor cls) as [e|] eqn:He|].
  - split; [|split].
    + split; [|intros [H|H]; discriminate].
      intros [msg H]. simpl in H.
      destruct (web E (_get_scraper cls) url (List.length (fetched w)));
        discriminate.
    + intros [H|H]; discriminate.
    + intros url' e' Hu' He'. inversion Hu'; inversion He'; subst. simpl.
      destruct (web E (_get_scraper cls) url' (List.length (fetched w)));
        split; reflexivity.
  - split; [|split].
    + split; [intros _; right; reflexivity | intros _; eexists; reflexivity].
    + reflexivity.
    + intros url' e' _ He'. discriminate.
  - split; [|split].
    + split; [intros _; left; reflexivity | intros _; eexists; reflexivity].
    + reflexivity.
    + intros url' e' Hu'. discriminate.
Qed.


(** Within nine thousand million seconds either way, a length converts to
    nanoseconds that fit. *)
Lemma fits_nanoseconds_within d :
  (- (9000000000 # 1) <= d)%Q -> (d <= 9000000000 # 1)%Q ->
  fits_nanoseconds d = true.
Proof.
  intros Hlo Hhi. unfold fits_nanoseconds. apply andb_true_intro. split.
  - apply Qle_bool_iff. lra.
  - destruct (Qle_bool (9223372036854775808 # 1) (d * (1000000000 # 1)))
      eqn:Hb; [|reflexivity].
    apply Qle_bool_iff in Hb. exfalso. lra.
Qed.

(** Ten thousand million seconds or more, either way, do not fit. *)
Lemma fits_nanoseconds_beyond d :
  (d <= - (10000000000 # 1))%Q \/ (10000000000 # 1 <= d)%Q ->
  fits_nanoseconds d = false.
Proof.
  intros H. unfold fits_nanoseconds. apply andb_false_iff.
  destruct H as [H|H].
  - left.
    destruct (Qle_bool (- (9223372036854775808 # 1)) (d * (1000000000 # 1)))
      eqn:Hb; [|reflexivity].
    apply Qle_bool_iff in Hb. exfalso. lra.
  - right. apply negb_false_iff, Qle_bool_iff. lra.
Qed.

(** A length [time.sleep] accepts: the time passes, nothing else. *)
Lemma time_sleep_accepts d w :
  (0 <= d)%Q -> (d <= 9000000000 # 1)%Q ->
  time_sleep (Finite d) w = (Ok tt, World (clock w + d)%Q (fetched w)).
Proof.
  intros Hlo Hhi. unfold time_sleep.
  rewrite fits_nanoseconds_within by lra. cbn [negb].
  apply Qle_bool_iff in Hlo. rewrite Hlo. reflexivity.
Qed.

(** When [time.sleep] raises, nothing has happened. *)
Lemma time_sleep_raise_world v w e w' :
  time_sleep v w = (Raise e, w') -> w' = w.
Proof.
  unfold time_sleep. destruct v as [q| |].
  - destruct (negb (fits_nanoseconds q)); [intros H; inversion H; reflexivity|].
    destruct (Qle_bool 0 q); [discriminate|].
    intros H; inversion H; reflexivity.
  - intros H; inversion H; reflexivity.
  - intros H; inversion H; reflexivity.
Qed.


(** What [is_label] accepts is a tag of the listed names with text. *)
Lemma is_label_sound lr n :
  is_label lr n = true ->
  exists nm, Bs4.name_of n = Some nm /\ In nm label_tags /\
             Bs4.get_text n EmptyString true <> EmptyString.
Proof.
  unfold is_label. intros H.
  apply andb_prop in H as [H _]. apply andb_prop in H as [Hn Ht].
  destruct (Bs4.name_of n) as [nm|]; [|discriminate].
  exists nm. split; [reflexivity|]. split.
  - apply existsb_exists in Hn as [x [Hin Hx]].
    apply String.eqb_eq in Hx. subst x. exact Hin.
  - intros Hempty. rewrite Hempty in Ht. discriminate.
Qed.

(** C10. A node whose tag is not one of div, span, p, td, th, or whose
    stripped text is empty, is never the label node the search returns,
    whatever the recognition rule; the discovery pass and the lazy
    extractor both pick their label node with this search. *)
Theorem label_node_never_outside_tags lr soup p n :
  Bs4.at_path soup p = Some n ->
  (forall nm, Bs4.name_of n = Some nm -> ~ In nm label_tags) \/
  Bs4.get_text n EmptyString true = EmptyString ->
  Bs4.find soup (is_label lr) <> Some p.
Proof.
  intros Hat Hbad Hfind.
  apply Bs4Facts.find_some in Hfind as [n' [Hat' [_ Hl]]].
  rewrite Hat in Hat'. inversion Hat'; subst n'.
  apply is_label_sound in Hl as [nm [Hnm [Hin Htext]]].
  destruct Hbad as [Hbad | Hbad]; [exact (Hbad nm Hnm Hin) | exact (Htext Hbad)].
Qed.

(** *** The identifier and the registry *)

(** The discovery-time resolution follows the chain of the
    specification. *)
Lemma resolve_value_chain soup label_node :
  resolve_value soup label_node = resolve_chain_spec soup label_node.
Proof.
  unfold resolve_value, resolve_chain_spec.
  destruct (Bs4.find_next_sibling soup label_node) as [sib|];
    destruct (Bs4.parent label_node) as [parent|];
    try destruct (Bs4.find_next_sibling soup parent) as [nextp|];
    cbn [truthy negb];
    repeat match goal with
           | |- context [Str.nonempty ?x] =>
               let H := fresh "H" in
               destruct (Str.nonempty x) eqn:H; cbn [truthy negb];
               rewrite ?H
           end;
    reflexivity.
Qed.

(** Lines 279-280 compute the identifier of the specification. *)
Lemma class_name_of_spec name : class_name_of name = identifier_spec name.
Proof.
  unfold class_name_of, identifier_spec.
  destruct (stem name) as [|c s]; reflexivity.
Qed.

Lemma attach_preserves_others url sc l cls key :
  (forall n e, In (n, e) l -> class_name_of n <> key) ->
  attrs (fold_left (attach url sc) l cls) !! key = attrs cls !! key.
Proof.
  revert cls. induction l as [|[n e] l IH]; intros cls Hl; [reflexivity|].
  simpl. rewrite IH by (intros n' e' Hin; apply (Hl n' e'); right; exact Hin).
  unfold setattr. simpl. apply lookup_insert_ne.
  apply (Hl n e). left. reflexivity.
Qed.

(** The class found under an identifier is the one of the last metric
    registered under it. *)
Lemma attach_last_wins url sc before name e after cls :
  (forall n' e', In (n', e') after -> class_name_of n' <> class_name_of name) ->
  attrs (fold_left (attach url sc) (before ++ (name, e) :: after) cls)
    !! class_name_of name
  = Some (MetricClass name (Some url) (Some e) (Some sc)).
Proof.
  intros Hafter. rewrite fold_left_app. simpl.
  rewrite attach_preserves_others by exact Hafter.
  unfold setattr. simpl. apply lookup_insert_eq.
Qed.

Lemma attach_keeps_keys url sc l cls key :
  is_Some (attrs cls !! key) ->
  is_Some (attrs (fold_left (attach url sc) l cls) !! key).
Proof.
  revert cls. induction l as [|[n e] l IH]; intros cls H; [exact H|].
  simpl. apply IH. unfold setattr. simpl.
  destruct (decide (class_name_of n = key)) as [->|Hne].
  - rewrite lookup_insert_eq. eexists. reflexivity.
  - rewrite lookup_insert_ne by exact Hne. exact H.
Qed.

Lemma attach_registers_all url sc l cls n e :
  In (n, e) l ->
  is_Some (attrs (fold_left (attach url sc) l cls) !! class_name_of n).
Proof.
  revert cls. induction l as [|[n' e'] l IH]; intros cls Hin; [destruct Hin|].
  destruct Hin as [Heq | Hin]; [|apply IH, Hin].
  inversion Heq; subst. simpl. apply attach_keeps_keys.
  unfold setattr. simpl. rewrite lookup_insert_eq. eexists. reflexivity.
Qed.

(** Line 295 looks the class up under the stem followed by the suffix;
    that is the generated identifier unless the stem already ends with
    the suffix. *)
Lemma lookup_name_is_class_name name :
  Str.endswith (stem name) "Metric" = false ->
  String.append (stem name) "Metric" = class_name_of name.
Proof.
  intros H. unfold class_name_of.
  destruct (stem name) as [|c s] eqn:Es; [reflexivity|].
  cbn [Str.nonempty]. rewrite H. reflexivity.
Qed.

Lemma mapM_cons {A B : Type} (f : A -> M B) x l w :
  mapM f (x :: l) w =
  match f x w with
  | (Ok y, w1) =>
      match mapM f l w1 with
      | (Ok ys, w2) => (Ok (y :: ys), w2)
      | (Raise e, w2) => (Raise e, w2)
      end
  | (Raise e, w1) => (Raise e, w1)
  end.
Proof.
  simpl. unfold bind. destruct (f x w) as [[y|e] w1]; [|reflexivity].
  destruct (mapM f l w1) as [[ys|e] w2]; reflexivity.
Qed.

Lemma discovered_metrics_ok cls keys w :
  (forall k, In k keys ->
     is_Some (attrs cls !! String.append (stem k) "Metric")) ->
  exists mapping,
    discovered_metrics cls keys w = (Ok mapping, w) /\
    List.map fst mapping = keys /\
    (forall k c, In (k, c) mapping ->
       attrs cls !! String.append (stem k) "Metric" = Some c).
Proof.
  induction keys as [|k keys IH]; intros Hk.
  - exists []. split; [reflexivity|]. split; [reflexivity|].
    intros k c [].
  - destruct (Hk k (or_introl eq_refl)) as [c Hc].
    destruct IH as [mapping [Hm [Hkeys Hall]]];
      [intros k' Hin; apply Hk; right; exact Hin|].
    exists ((k, c) :: mapping). split; [|split].
    + unfold discovered_metrics in *. rewrite mapM_cons.
      unfold bind at 1, getattr at 1. rewrite Hc. unfold ret at 1 2.
      rewrite Hm. reflexivity.
    + simpl. rewrite Hkeys. reflexivity.
    + intros k' c' [Heq | Hin]; [inversion Heq; subst; exact Hc|].
      apply Hall, Hin.
Qed.

(** When no stem ends with the suffix, the registration loop and the
    name-to-class mapping succeed, and every name is mapped to the class
    found under its identifier. *)
Lemma register_ok url sc discovered cls w :
  (forall n e, In (n, e) discovered ->
     Str.endswith (stem n) "Metric" = false) ->
  exists cls',
    register url sc discovered cls w = (Ok cls', w) /\
    attrs cls' = attrs (fold_left (attach url sc) discovered cls) /\
    exists mapping,
      _discovered_metrics cls' = Some mapping /\
      List.map fst mapping = List.map fst discovered /\
      forall k c, In (k, c) mapping ->
        attrs cls' !! class_name_of k = Some c.
Proof.
  intros Hsuffix. unfold register.
  set (cls1 := fold_left (attach url sc) discovered cls).
  destruct (discovered_metrics_ok cls1 (List.map fst discovered) w)
    as [mapping [Hm [Hkeys Hall]]].
  { intros k Hin. apply in_map_iff in Hin as [[n e] [Hk Hin]]. simpl in Hk.
    subst k. rewrite (lookup_name_is_class_name n (Hsuffix n e Hin)).
    apply (attach_registers_all _ _ _ _ _ e Hin). }
  exists (OwnerClass (attrs cls1) (Some mapping)).
  split; [unfold bind; rewrite Hm; reflexivity|].
  split; [reflexivity|]. exists mapping.
  split; [reflexivity|]. split; [exact Hkeys|].
  intros k c Hin. simpl.
  assert (Hk : In k (List.map fst discovered)).
  { rewrite <- Hkeys. apply in_map_iff. exists (k, c). split; [reflexivity | exact Hin]. }
  apply in_map_iff in Hk as [[n e] [Hn Hin']]. simpl in Hn. subst n.
  rewrite <- (lookup_name_is_class_name k (Hsuffix k e Hin')).
  apply Hall, Hin.
Qed.


(** *** Discovery: what is omitted, what is kept *)

Lemma discover_cons soup label re rest :
  discover soup ((label, re) :: rest) =
  match Bs4.find soup (is_label re) with
  | Some p => (label, discovered_extractor soup re p) :: discover soup rest
  | None => discover soup rest
  end.
Proof.
  simpl. unfold discovered_extractor.
  destruct (Bs4.find soup (is_label re)) as [p|]; [|reflexivity].
  destruct (resolve_value soup p) as [val|]; [|reflexivity].
  destruct (Str.nonempty val); reflexivity.
Qed.

(** A category is in the result only if some node satisfies its rule. *)
Lemma discover_only_matched soup cands label e :
  In (label, e) (discover soup cands) ->
  exists re p, In (label, re) cands /\
               Bs4.find soup (is_label re) = Some p /\
               e = discovered_extractor soup re p.
Proof.
  induction cands as [|[l re] rest IH]; [intros []|].
  rewrite discover_cons.
  destruct (Bs4.find soup (is_label re)) as [p|] eqn:Ef.
  - intros [Heq | Hin].
    + inversion Heq; subst. exists re, p.
      split; [left; reflexivity | split; [exact Ef | reflexivity]].
    + destruct (IH Hin) as [re' [p' [H1 H2]]]. exists re', p'.
      split; [right; exact H1 | exact H2].
  - intros Hin. destruct (IH Hin) as [re' [p' [H1 H2]]]. exists re', p'.
    split; [right; exact H1 | exact H2].
Qed.

(** A category whose rule some node satisfies is in the result, bound
    when a value resolved and lazy otherwise. *)
Lemma discover_all_matched soup cands label re p :
  In (label, re) cands -> Bs4.find soup (is_label re) = Some p ->
  In (label, discovered_extractor soup re p) (discover soup cands).
Proof.
  induction cands as [|[l re'] rest IH]; [intros []|].
  rewrite discover_cons. intros [Heq | Hin] Hf.
  - inversion Heq; subst. rewrite Hf. left. reflexivity.
  - destruct (Bs4.find soup (is_label re')); [right|]; apply IH; assumption.
Qed.

Lemma has_digit_append a b :
  Str.has_digit (String.append a b) = Str.has_digit a || Str.has_digit b.
Proof.
  induction a as [|c a IH]; [reflexivity|].
  change (Str.has_digit (String.append (String c a) b))
    with (Str.is_digit c || Str.has_digit (String.append a b)).
  rewrite IH. simpl. apply orb_assoc.
Qed.

Lemma percent_number_digit c s :
  Re.percent_number (String c s) = None <-> Str.is_digit c = false.
Proof.
  unfold Re.percent_number, Re.unsigned_number. simpl.
  destruct (Str.is_digit c).
  - destruct (Re.span_digits s) as [d r]. simpl.
    split; [|discriminate].
    destruct r as [|c' r']; [discriminate|].
    destruct (Re.span_digits r') as [f r''].
    destruct (Ascii.eqb c' "." && Str.nonempty f).
    + destruct r'' as [|c2 r2]; [discriminate|].
      destruct (Ascii.eqb c2 "%"); discriminate.
    + destruct (Ascii.eqb c' "%"); discriminate.
  - simpl. split; reflexivity.
Qed.

Lemma percent_number_nonempty s t :
  Re.percent_number s = Some t -> Str.nonempty t = true.
Proof.
  unfold Re.percent_number, Re.unsigned_number.
  destruct (Re.span_digits s) as [d r].
  destruct d as [|cd d]; [discriminate|]. cbn [Str.nonempty].
  destruct r as [|c' r']; [intros H; inversion H; reflexivity|].
  destruct (Re.span_digits r') as [f r''].
  destruct (Ascii.eqb c' "." && Str.nonempty f).
  - destruct r'' as [|c2 r2]; [intros H; inversion H; reflexivity|].
    destruct (Ascii.eqb c2 "%"); intros H; inversion H; reflexivity.
  - destruct (Ascii.eqb c' "%"); intros H; inversion H; reflexivity.
Qed.

Lemma search_percent_number_nonempty s t :
  Re.search_percent_number s = Some t -> Str.nonempty t = true.
Proof.
  induction s as [|c s IH]; simpl; [discriminate|].
  destruct (Re.percent_number (String c s)) as [t'|] eqn:Ep; [|exact IH].
  intros H; inversion H; subst. exact (percent_number_nonempty _ _ Ep).
Qed.

(** The numeric pattern is found exactly when there is a digit. *)
Lemma search_percent_number_none s :
  Re.search_percent_number s = None <-> Str.has_digit s = false.
Proof.
  induction s as [|c s IH]; [split; reflexivity|].
  simpl. destruct (Re.percent_number (String c s)) as [t|] eqn:Ep.
  - split; [discriminate|]. intros H. apply orb_false_elim in H as [H _].
    apply (proj2 (percent_number_digit c s)) in H. congruence.
  - apply (proj1 (percent_number_digit c s)) in Ep. rewrite Ep. simpl. exact IH.
Qed.

Lemma search_percent_number_prefix a b :
  truthy (Re.search_percent_number (String.append a b)) = false ->
  Re.search_percent_number a = None.
Proof.
  destruct (Re.search_percent_number (String.append a b)) as [t|] eqn:Et.
  - simpl. rewrite (search_percent_number_nonempty _ _ Et). discriminate.
  - intros _. apply search_percent_number_none in Et.
    rewrite has_digit_append in Et. apply orb_false_elim in Et as [Et _].
    apply search_percent_number_none. exact Et.
Qed.

(** Against the page on which discovery resolved nothing, the lazy
    extractor returns no value or the empty text of an empty sibling. *)
Lemma lazy_extract_after_unresolved soup re p :
  Bs4.find soup (is_label re) = Some p ->
  truthy (resolve_value soup p) = false ->
  lazy_extract re soup = None \/ lazy_extract re soup = Some EmptyString.
Proof.
  intros Hf. rewrite resolve_value_chain.
  unfold lazy_extract, resolve_chain_spec. rewrite Hf.
  assert (Hempty : forall t, Str.nonempty t = false -> t = EmptyString).
  { intros [|c t]; [reflexivity | discriminate]. }
  destruct (Bs4.find_next_sibling soup p) as [sib|].
  { destruct (Str.nonempty (Bs4.text_at soup sib EmptyString true)) eqn:Es.
    - simpl. rewrite Es. discriminate.
    - intros _. right. rewrite (Hempty _ Es). reflexivity. }
  destruct (Bs4.parent p) as [parent|].
  - destruct (Bs4.find_next_sibling soup parent) as [nextp|].
    + destruct (Str.nonempty (Bs4.text_at soup nextp EmptyString true)) eqn:En.
      * simpl. rewrite En. discriminate.
      * intros _. right. rewrite (Hempty _ En). reflexivity.
    + intros Ht. left. exact (search_percent_number_prefix _ _ Ht).
  - intros Ht. left. exact (search_percent_number_prefix _ _ Ht).
Qed.

(** X14. So [get_value] on the accessor discovery built for an
    unresolved label, against the same page, does not raise: it returns
    [None], or the empty string when the label has an empty sibling. *)
Lemma get_value_after_unresolved cls w url sc re soup p :
  sofascore_url cls = Some url -> Str.nonempty url = true ->
  _extractor cls = Some (make_lazy_extractor re) ->
  _scraper_instance cls = Some sc ->
  web E sc url (List.length (fetched w)) = Page soup ->
  Bs4.find soup (is_label re) = Some p ->
  truthy (resolve_value soup p) = false ->
  fst (get_value E cls w) = Ok PyNone \/
  fst (get_value E cls w) = Ok (PyStr EmptyString).
Proof.
  intros Hu Hne He Hs Hw Hf Hv.
  unfold get_value, bind. rewrite fetch_raw_unfold.
  unfold url_set, _get_scraper. rewrite Hu, Hne, He, Hs, Hw. simpl.
  destruct (lazy_extract_after_unresolved _ _ _ Hf Hv) as [H|H]; rewrite H;
    [left | right]; reflexivity.
Qed.

End Properties.

(** * The claims at concrete documents *)

Import Sample.

(** C1. Discovery on a page that shows "Ball possession" next to "61%"
    stores the outer lambda [lambda captured_val=val: ...] itself.
    Called with a document it binds [captured_val] to that document and
    returns the inner function: two different documents give two
    different results, neither is the string "61%", and [get_value]
    fails on it. *)
Lemma bound_extractor_returns_closure :
  fst (find_metrics (env_of [possession ["61%"]]) RequestsScraper url None w0)
  = Ok [("Ball possession", captured_val_lambda "61%")] /\
  call_extractor (env_of []) (captured_val_lambda "61%") (possession ["61%"])
  = PyFunction (possession ["61%"]) /\
  call_extractor (env_of []) (captured_val_lambda "61%") (possession ["55%"])
  = PyFunction (possession ["55%"]) /\
  PyFunction (possession ["61%"]) <> PyFunction (possession ["55%"]) /\
  fst (fetch_raw (env_of [possession ["55%"]])
         (metric "Ball possession" (captured_val_lambda "61%") RequestsScraper)
         w0)
  = Ok (PyFunction (possession ["55%"])) /\
  fst (get_value (env_of [possession ["55%"]])
         (metric "Ball possession" (captured_val_lambda "61%") RequestsScraper)
         w0)
  = Raise (AttributeError "'function' object has no attribute 'strip'").
Proof.
  split; [vm_compute; reflexivity|].
  split; [reflexivity|]. split; [reflexivity|].
  split; [discriminate|].
  split; vm_compute; reflexivity.
Qed.

(** C2. With selectors, [PlaywrightScraper.find_metrics] fetches a page
    and builds extractors that read that page whatever document they are
    given: on a later page where the selector resolves to "55%" the
    extractor still returns "61%", where the extractor of
    [RequestsScraper] returns "55%". *)
Lemma playwright_selector_extractor_keeps_first_page :
  fst (find_metrics (env_of [paragraph "61%"]) PlaywrightScraper url
         (Some [("Ball possession", "p")]) w0)
  = Ok [("Ball possession", make_extractor_playwright (paragraph "61%") "p")] /\
  fst (find_metrics (env_of [paragraph "61%"]) RequestsScraper url
         (Some [("Ball possession", "p")]) w0)
  = Ok [("Ball possession", make_extractor "p")] /\
  extract_by_selector (env_of []) (paragraph "55%") "p" = Some "55%" /\
  call_extractor (env_of []) (make_extractor_playwright (paragraph "61%") "p")
    (paragraph "55%") = PyStr "61%" /\
  call_extractor (env_of []) (make_extractor "p") (paragraph "55%")
  = PyStr "55%" /\
  fst (fetch_raw (env_of [paragraph "61%"; paragraph "55%"])
         (metric "Ball possession"
            (make_extractor_playwright (paragraph "61%") "p") PlaywrightScraper)
         (World 0 [(PlaywrightScraper, url)]))
  = Ok (PyStr "61%") /\
  fst (fetch_raw (env_of [paragraph "61%"; paragraph "55%"])
         (metric "Ball possession" (make_extractor "p") PlaywrightScraper)
         (World 0 [(PlaywrightScraper, url)]))
  = Ok (PyStr "55%").
Proof. repeat split; vm_compute; reflexivity. Qed.

(** The examples of the specification for [get_value]. *)
Lemma get_value_spec_examples :
  get_value_spec (Some "43%") = PyFloat 43 /\
  get_value_spec (Some "1.25") = PyFloat (5 # 4) /\
  get_value_spec (Some "N/A") = PyStr "N/A" /\
  get_value_spec (Some "Rank: 7th") = PyFloat 7 /\
  get_value_spec None = PyNone.
Proof. repeat split; vm_compute; reflexivity. Qed.

(** C3, as stated, fails on a raw string without digits that has blanks
    around it: lines 209 and 222 return the trimmed string, where the
    specification returns the raw string unchanged. *)
Lemma get_value_trims_unparsed_raw :
  parse_raw " N/A " = PyStr "N/A" /\
  get_value_spec (Some " N/A ") = PyStr " N/A " /\
  parse_raw " N/A " <> get_value_spec (Some " N/A ").
Proof.
  split; [|split]; vm_compute; [reflexivity | reflexivity | discriminate].
Qed.

(** C7, at an accessor with both fields set (one fetch, the extractor
    applied to the page served) and at one with no extractor (the error,
    and nothing fetched). *)
Lemma fetch_raw_contract_witness :
  (fetched (snd (fetch_raw (env_of [paragraph "43%"])
                   (metric "Ball possession" (make_extractor "p")
                      RequestsScraper) w0))
   = [(RequestsScraper, url)] /\
   fst (fetch_raw (env_of [paragraph "43%"])
          (metric "Ball possession" (make_extractor "p") RequestsScraper) w0)
   = Ok (PyStr "43%")) /\
  snd (fetch_raw (env_of [paragraph "43%"])
         (MetricClass "Ball possession" (Some url) None None) w0) = w0.
Proof.
  split.
  - exact (proj2 (proj2 (fetch_raw_contract (env_of [paragraph "43%"])
                           (metric "Ball possession" (make_extractor "p")
                              RequestsScraper) w0))
             url (make_extractor "p") eq_refl eq_refl).
  - exact (proj1 (proj2 (fetch_raw_contract (env_of [paragraph "43%"])
                           (MetricClass "Ball possession" (Some url) None None)
                           w0))
             (or_intror eq_refl)).
Defined.

(** The examples of the specification for the fallback chain, at
    discovery time and in the lazy extractor. *)
Lemma resolve_value_examples :
  Bs4.find sibling_and_parent_sibling (is_label ball_possession_re)
  = Some [0; 0; 0]%nat /\
  resolve_value sibling_and_parent_sibling [0; 0; 0]%nat = Some "61%" /\
  lazy_extract ball_possession_re sibling_and_parent_sibling = Some "61%" /\
  Bs4.find clean_sheets_inline (is_label clean_sheets_re) = Some [0; 0]%nat /\
  resolve_value clean_sheets_inline [0; 0]%nat = Some "9" /\
  lazy_extract clean_sheets_re clean_sheets_inline = Some "9".
Proof. repeat split; vm_compute; reflexivity. Qed.

(** C4. The lazy extractor does not follow the chain of the discovery
    pass.  Where the label's sibling is empty it returns the empty text
    instead of going on (the chain yields "9"); where the only number is
    in the parent's text it finds none (the chain yields "9"). *)
Lemma lazy_extractor_departs_from_chain :
  Bs4.find clean_sheets_empty_sibling (is_label clean_sheets_re)
  = Some [0; 0]%nat /\
  resolve_value clean_sheets_empty_sibling [0; 0]%nat = Some "9" /\
  resolve_chain_spec clean_sheets_empty_sibling [0; 0]%nat = Some "9" /\
  lazy_extract clean_sheets_re clean_sheets_empty_sibling = Some "" /\
  Bs4.find clean_sheets_number_in_parent (is_label clean_sheets_re)
  = Some [0; 1]%nat /\
  resolve_value clean_sheets_number_in_parent [0; 1]%nat = Some "9" /\
  resolve_chain_spec clean_sheets_number_in_parent [0; 1]%nat = Some "9" /\
  lazy_extract clean_sheets_re clean_sheets_number_in_parent = None.
Proof. repeat split; vm_compute; reflexivity. Qed.

(** C5. For the metric name "Shots metric" the generated identifier is
    "ShotsMetric" (the suffix is not doubled), but the name-to-class
    mapping looks for "ShotsMetricMetric": building the registry
    raises. *)
Lemma suffixed_name_lookup_raises :
  class_name_of "Shots metric" = "ShotsMetric" /\
  identifier_spec "Shots metric" = "ShotsMetric" /\
  fst (MetricMeta_new (env_of []) (Some url) None
         (Some [("Shots metric", "p")]) w0)
  = Raise (AttributeError "type object has no attribute 'ShotsMetricMetric'").
Proof. repeat split; vm_compute; reflexivity. Qed.

(** C6. Two names with one identifier: for "Ball possession" and
    "ball-possession" the later class is the one found under
    "BallPossessionMetric"; for "Shots metric" and "shots-metric", whose
    identifier "ShotsMetric" already ends with the suffix, building the
    registry raises. *)
Lemma colliding_suffixed_names_raise :
  class_name_of "Ball possession" = class_name_of "ball-possession" /\
  (exists cls w,
     MetricMeta_new (env_of []) (Some url) None
       (Some [("Ball possession", "p"); ("ball-possession", "td")]) w0
     = (Ok cls, w) /\
     attrs cls !! "BallPossessionMetric"
     = Some (metric "ball-possession" (make_extractor "td") RequestsScraper)) /\
  class_name_of "Shots metric" = class_name_of "shots-metric" /\
  fst (MetricMeta_new (env_of []) (Some url) None
         (Some [("Shots metric", "p"); ("shots-metric", "td")]) w0)
  = Raise (AttributeError "type object has no attribute 'ShotsMetricMetric'").
Proof.
  split; [vm_compute; reflexivity|].
  split; [|split; vm_compute; reflexivity].
  eexists. eexists. split; [vm_compute; reflexivity|].
  vm_compute. reflexivity.
Qed.


(** So do a delay too long to count in nanoseconds, an infinity and a
    NaN, each refused by [time.sleep] before anything is fetched. *)
Lemma refresh_unacceptable_delays :
  refresh (env_of [paragraph "43%"])
    (metric "Ball possession" (make_extractor "p") RequestsScraper)
    (Finite (10000000000 # 1)) w0
  = (Raise (OverflowError "timestamp too large to convert to C _PyTime_t"),
     w0) /\
  refresh (env_of [paragraph "43%"])
    (metric "Ball possession" (make_extractor "p") RequestsScraper)
    (Infinity false) w0
  = (Raise (OverflowError "timestamp too large to convert to C _PyTime_t"),
     w0) /\
  refresh (env_of [paragraph "43%"])
    (metric "Ball possession" (make_extractor "p") RequestsScraper)
    NaN w0
  = (Raise (ValueError "Invalid value NaN (not a number)"), w0).
Proof. split; [|split]; vm_compute; reflexivity. Qed.


(** C9. On a page whose "Ball possession" cell is followed by an empty
    cell, discovery resolves no value and installs the lazy extractor;
    against the same page that extractor returns the empty string, and
    [get_value] returns the empty string, not [None]. *)
Lemma empty_sibling_yields_empty_string :
  fst (find_metrics (env_of [possession []]) RequestsScraper url None w0)
  = Ok [("Ball possession", make_lazy_extractor ball_possession_re)] /\
  fst (fetch_raw (env_of [possession []])
         (metric "Ball possession" (make_lazy_extractor ball_possession_re)
            RequestsScraper) w0)
  = Ok (PyStr "") /\
  fst (get_value (env_of [possession []])
         (metric "Ball possession" (make_lazy_extractor ball_possession_re)
            RequestsScraper) w0)
  = Ok (PyStr "").
Proof. repeat split; vm_compute; reflexivity. Qed.

(** C10, at the table around the label cell: its text satisfies the
    rule, its tag is not one of the five. *)
Lemma label_node_never_outside_tags_witness :
  Re.search ball_possession_re
    (Bs4.get_text (Bs4.Tag "table" [row [cell ["Ball possession"]; cell ["61%"]]])
       " " false) = true /\
  Bs4.find (possession ["61%"]) (is_label ball_possession_re) <> Some [0%nat].
Proof.
  split; [reflexivity|].
  apply (label_node_never_outside_tags ball_possession_re (possession ["61%"])
           [0%nat]
           (Bs4.Tag "table"
              [row [cell ["Ball possession"]; cell ["61%"]]])).
  - reflexivity.
  - left. intros nm H. inversion H. subst nm. simpl.
    intros [H0|[H0|[H0|[H0|[H0|[]]]]]]; discriminate.
Defined.

(** * Further properties of the code *)

Section Further.

Variable E : env.

(** *** Generated classes *)

(** Every class the registration loop leaves on the owner was there
    before or was generated from an entry, with the registry's URL and
    scraper. *)
Lemma attach_origin url sc l cls key c :
  attrs (fold_left (attach url sc) l cls) !! key = Some c ->
  attrs cls !! key = Some c \/
  exists n e, In (n, e) l /\ key = class_name_of n /\
              c = MetricClass n (Some url) (Some e) (Some sc).
Proof.
  revert cls. induction l as [|[n e] l IH]; intros cls H; [left; exact H|].
  simpl in H. apply IH in H as [H | [n' [e' [Hin [Hk Hc]]]]].
  - unfold setattr in H. simpl in H.
    destruct (decide (class_name_of n = key)) as [Heq | Hne].
    + subst key. rewrite lookup_insert_eq in H. inversion H; subst c.
      right. exists n, e. split; [left; reflexivity | split; reflexivity].
    + rewrite lookup_insert_ne in H by exact Hne. left. exact H.
  - right. exists n', e'. split; [right; exact Hin | split; assumption].
Qed.

Lemma url_set_some url u : url_set url = Some u -> url_set (Some u) = Some u.
Proof.
  destruct url as [x|]; [|discriminate]. simpl.
  destruct (Str.nonempty x) eqn:Ex; [|discriminate].
  intros H; inversion H; subst. rewrite Ex. reflexivity.
Qed.

(** What [MetricMeta_new] returns, when it returns. *)
Lemma MetricMeta_new_ok url sc sels w cls w' :
  MetricMeta_new E url sc sels w = (Ok cls, w') ->
  (url_set url = None /\ cls = OwnerClass ∅ None /\ w' = w) \/
  exists u discovered w1,
    url_set url = Some u /\
    find_metrics E (match sc with Some s => s | None => RequestsScraper end)
      u sels w = (Ok discovered, w1) /\
    register u (match sc with Some s => s | None => RequestsScraper end)
      discovered (OwnerClass ∅ None) w1 = (Ok cls, w').
Proof.
  unfold MetricMeta_new.
  destruct (url_set url) as [u|]; [|intros H; inversion H; left; auto].
  intros H. right. unfold bind in H.
  destruct (find_metrics E _ u sels w) as [[discovered|e] w1] eqn:Ef;
    [|discriminate].
  exists u, discovered, w1. auto.
Qed.

(** Building the name-to-class mapping touches nothing. *)
Lemma discovered_metrics_world cls keys w r w' :
  discovered_metrics cls keys w = (r, w') -> w' = w.
Proof.
  unfold discovered_metrics. revert r w'.
  induction keys as [|k keys IH]; intros r w' H.
  - inversion H. reflexivity.
  - rewrite mapM_cons in H. unfold bind at 1, getattr at 1 in H.
    destruct (attrs cls !! _) as [v|].
    + unfold ret at 1 2 in H.
      destruct (mapM _ keys w) as [[ys|e] w2] eqn:Em;
        inversion H; subst; exact (IH _ _ eq_refl).
    + inversion H. reflexivity.
Qed.

Lemma register_attrs url sc discovered cls0 w cls w' :
  register url sc discovered cls0 w = (Ok cls, w') ->
  attrs cls = attrs (fold_left (attach url sc) discovered cls0) /\ w' = w.
Proof.
  unfold register, bind.
  destruct (discovered_metrics _ _ w) as [[mapping|e] w1] eqn:Ed; [|discriminate].
  apply discovered_metrics_world in Ed. subst w1.
  intros H. inversion H; subst. split; reflexivity.
Qed.

(** X6. A class generated by [MetricMeta] never makes [fetch_raw] raise
    its configuration error. *)
Theorem generated_class_is_configured url sc sels w cls w' key c w2 :
  MetricMeta_new E url sc sels w = (Ok cls, w') ->
  attrs cls !! key = Some c ->
  url_set (sofascore_url c) <> None /\ _extractor c <> None /\
  forall msg, fst (fetch_raw E c w2) <> Raise (RuntimeError msg).
Proof.
  intros Hnew Hc.
  apply MetricMeta_new_ok in Hnew
    as [[_ [Hcls _]] | [u [discovered [w1 [Hu [_ Hreg]]]]]].
  { subst cls. simpl in Hc. rewrite lookup_empty in Hc. discriminate. }
  apply register_attrs in Hreg as [Hattrs _]. rewrite Hattrs in Hc.
  apply attach_origin in Hc as [Hc | [n [e [_ [_ Hc]]]]].
  { simpl in Hc. rewrite lookup_empty in Hc. discriminate. }
  subst c. cbn [sofascore_url _extractor]. rewrite (url_set_some _ _ Hu).
  split; [discriminate|]. split; [discriminate|].
  intros msg. rewrite fetch_raw_unfold. cbn [sofascore_url _extractor].
  rewrite (url_set_some _ _ Hu).
  destruct (web E _ u (List.length (fetched w2))); discriminate.
Qed.

(** *** Construction, mode by mode *)

Lemma selector_entries sels n e :
  In (n, e) (List.map (fun ns : string * string =>
                         (fst ns, make_extractor (snd ns))) sels) ->
  exists s, In (n, s) sels /\ e = make_extractor s.
Proof.
  intros H. apply in_map_iff in H as [[n' s] [Heq Hin]].
  simpl in Heq. inversion Heq; subst. exists s. split; [exact Hin | reflexivity].
Qed.

(** X1. With a URL, the default backend and a non-empty selector mapping
    none of whose names has a stem ending in the suffix, the class is
    built without any fetch; the mapping lists the given names in order,
    and each of its classes is found under the identifier of its name
    and holds the URL, the [RequestsScraper] and a selector extractor of
    an entry with that identifier. *)
Theorem explicit_mode_needs_no_fetch url sels w :
  Str.nonempty url = true -> sels <> [] ->
  (forall n s, In (n, s) sels -> Str.endswith (stem n) "Metric" = false) ->
  exists cls mapping,
    MetricMeta_new E (Some url) None (Some sels) w = (Ok cls, w) /\
    _discovered_metrics cls = Some mapping /\
    List.map fst mapping = List.map fst sels /\
    forall k c, In (k, c) mapping ->
      attrs cls !! class_name_of k = Some c /\
      sofascore_url c = Some url /\
      _scraper_instance c = Some RequestsScraper /\
      exists n s, In (n, s) sels /\ class_name_of n = class_name_of k /\
                  metric_name c = n /\ _extractor c = Some (make_extractor s).
Proof.
  intros Hurl Hne Hstems.
  set (discovered := List.map (fun ns : string * string =>
                                 (fst ns, make_extractor (snd ns))) sels).
  destruct (register_ok url RequestsScraper discovered (OwnerClass ∅ None) w)
    as [cls [Hreg [Hattrs [mapping [Hmap [Hkeys Hall]]]]]].
  { intros n e Hin. apply selector_entries in Hin as [s [Hin _]].
    exact (Hstems n s Hin). }
  exists cls, mapping. split; [|split; [exact Hmap | split]].
  - unfold MetricMeta_new. cbn [url_set]. rewrite Hurl.
    destruct sels as [|x sels']; [congruence|].
    unfold find_metrics, RequestsScraper_find_metrics, bind, ret.
    exact Hreg.
  - rewrite Hkeys. unfold discovered. rewrite map_map. reflexivity.
  - intros k c Hin. pose proof (Hall k c Hin) as Hc. split; [exact Hc|].
    rewrite Hattrs in Hc.
    apply attach_origin in Hc as [Hc | [n [e [Hn [Hk Hc]]]]].
    { simpl in Hc. rewrite lookup_empty in Hc. discriminate. }
    apply selector_entries in Hn as [s [Hn He]]. subst c e.
    split; [reflexivity|]. split; [reflexivity|].
    exists n, s. split; [exact Hn|]. split; [symmetry; exact Hk|].
    split; reflexivity.
Qed.

(** X2. Without a URL ([None] or the empty string) nothing is discovered:
    no fetch, no metric class, no mapping, whatever scraper and selectors
    are given. *)
Theorem no_url_no_discovery url sc sels w :
  url = None \/ url = Some EmptyString ->
  MetricMeta_new E url sc sels w = (Ok (OwnerClass ∅ None), w) /\
  forall key, attrs (OwnerClass ∅ None) !! key = None.
Proof.
  intros Hurl. split.
  - destruct Hurl as [-> | ->]; reflexivity.
  - intros key. simpl. apply lookup_empty.
Qed.

(** X3. When the first fetch of discovery fails (any fetch of the
    Playwright backend, or the fetch of auto mode), building the class
    fails with the fetcher's error. *)
Theorem discovery_fetch_failure_fails_construction url sc sels w why :
  Str.nonempty url = true ->
  sc = PlaywrightScraper \/ sels = None \/ sels = Some [] ->
  web E sc url (List.length (fetched w)) = Unreachable why ->
  MetricMeta_new E (Some url) (Some sc) sels w
  = (Raise (FetchError why), World (clock w) (fetched w ++ [(sc, url)])).
Proof.
  intros Hurl Hmode Hweb.
  unfold MetricMeta_new. cbn [url_set]. rewrite Hurl.
  unfold bind at 1.
  assert (Hf : find_metrics E sc url sels w
               = (Raise (FetchError why),
                  World (clock w) (fetched w ++ [(sc, url)]))).
  { destruct sc.
    - destruct Hmode as [H | [-> | ->]]; [discriminate | |];
        unfold find_metrics, RequestsScraper_find_metrics, bind, fetch_soup;
        rewrite Hweb; reflexivity.
    - unfold find_metrics, PlaywrightScraper_find_metrics, bind, fetch_soup.
      rewrite Hweb. reflexivity. }
  rewrite Hf. reflexivity.
Qed.

(** X4. In auto mode the Playwright backend fetches twice: its own page
    is dropped, and the labels are looked for on the page the
    [RequestsScraper] fetches next. *)
Theorem playwright_auto_mode_discovers_on_requests_page url w rendered plain :
  web E PlaywrightScraper url (List.length (fetched w)) = Page rendered ->
  web E RequestsScraper url (S (List.length (fetched w))) = Page plain ->
  find_metrics E PlaywrightScraper url None w
  = (Ok (discover plain candidates),
     World (clock w)
       (fetched w ++ [(PlaywrightScraper, url); (RequestsScraper, url)])).
Proof.
  intros Hpw Hrq.
  unfold find_metrics, PlaywrightScraper_find_metrics, bind at 1, fetch_soup at 1.
  rewrite Hpw.
  unfold RequestsScraper_find_metrics, bind, fetch_soup. cbn [fetched clock].
  rewrite length_app. simpl List.length. rewrite Nat.add_1_r, Hrq.
  unfold ret. rewrite <- app_assoc. reflexivity.
Qed.

Lemma candidate_stems n re :
  In (n, re) candidates -> Str.endswith (stem n) "Metric" = false.
Proof.
  intros H. simpl in H.
  repeat (destruct H as [H | H];
          [inversion H; subst; vm_compute; reflexivity|]).
  destruct H.
Qed.

Lemma candidate_class_names_differ n re k re' :
  In (n, re) candidates -> In (k, re') candidates ->
  class_name_of n = class_name_of k -> n = k.
Proof.
  intros Hn Hk. simpl in Hn, Hk.
  repeat (destruct Hn as [Hn | Hn]; [inversion Hn; subst; clear Hn|]);
    try (destruct Hn);
    repeat (destruct Hk as [Hk | Hk]; [inversion Hk; subst; clear Hk|]);
    try (destruct Hk);
    intros H; try reflexivity; vm_compute in H; discriminate.
Qed.

(** X5. In auto mode with the default backend, whatever page is fetched,
    the class is built (the catalog has no name whose stem ends in the
    suffix); one fetch is made; the mapping lists the discovered labels
    in order, and each label is mapped to its own class, found under its
    identifier and holding the extractor discovery chose for it. *)
Theorem auto_mode_registers_discovered_labels url w soup :
  Str.nonempty url = true ->
  web E RequestsScraper url (List.length (fetched w)) = Page soup ->
  exists cls mapping,
    MetricMeta_new E (Some url) None None w
    = (Ok cls, World (clock w) (fetched w ++ [(RequestsScraper, url)])) /\
    _discovered_metrics cls = Some mapping /\
    List.map fst mapping = List.map fst (discover soup candidates) /\
    forall k c, In (k, c) mapping ->
      attrs cls !! class_name_of k = Some c /\
      metric_name c = k /\
      exists re p, In (k, re) candidates /\
                   Bs4.find soup (is_label re) = Some p /\
                   _extractor c = Some (discovered_extractor soup re p).
Proof.
  intros Hurl Hweb.
  set (w1 := World (clock w) (fetched w ++ [(RequestsScraper, url)])).
  destruct (register_ok url RequestsScraper (discover soup candidates)
              (OwnerClass ∅ None) w1)
    as [cls [Hreg [Hattrs [mapping [Hmap [Hkeys Hall]]]]]].
  { intros n e Hin.
    apply discover_only_matched in Hin as [re [p [Hc _]]].
    exact (candidate_stems n re Hc). }
  exists cls, mapping. split; [|split; [exact Hmap | split; [exact Hkeys|]]].
  - unfold MetricMeta_new. cbn [url_set]. rewrite Hurl.
    unfold find_metrics, RequestsScraper_find_metrics, bind, fetch_soup.
    rewrite Hweb. unfold ret. exact Hreg.
  - intros k c Hin. pose proof (Hall k c Hin) as Hc. split; [exact Hc|].
    assert (Hk : In k (List.map fst (discover soup candidates))).
    { rewrite <- Hkeys. apply in_map_iff. exists (k, c).
      split; [reflexivity | exact Hin]. }
    apply in_map_iff in Hk as [[k' e'] [Hk' Hin']]. simpl in Hk'. subst k'.
    apply discover_only_matched in Hin' as [rek [pk [Hck _]]].
    rewrite Hattrs in Hc.
    apply attach_origin in Hc as [Hc | [n [e [Hn [Hid Hc]]]]].
    { simpl in Hc. rewrite lookup_empty in Hc. discriminate. }
    apply discover_only_matched in Hn as [re [p [Hcn [Hf He]]]].
    assert (n = k) by exact (candidate_class_names_differ _ _ _ _ Hcn Hck
                               (eq_sym Hid)).
    subst n c. split; [reflexivity|].
    exists re, p. split; [exact Hcn|]. split; [exact Hf|].
    simpl. rewrite He. reflexivity.
Qed.

(** *** Discovery *)

(** X10. Discovery yields categories in catalog order, none twice and none
    from outside the catalog: with the five categories of the source, at
    most five, under distinct names. *)
Theorem discover_keeps_catalog_order soup cands :
  List.map fst (discover soup cands) `sublist_of` List.map fst cands /\
  NoDup (List.map fst (discover soup candidates)) /\
  List.length (discover soup candidates) <= 5.
Proof.
  assert (Hsub : forall cs,
            List.map fst (discover soup cs) `sublist_of` List.map fst cs).
  { induction cs as [|[l re] rest IH]; [constructor|].
    rewrite discover_cons.
    destruct (Bs4.find soup (is_label re)); simpl;
      [apply sublist_skip | apply sublist_cons]; exact IH. }
  split; [apply Hsub|]. split.
  - apply (sublist_NoDup _ (List.map fst candidates)); [|apply Hsub].
    apply (bool_decide_unpack _). vm_compute. exact I.
  - rewrite <- (length_map fst).
    apply (sublist_length _ _ (Hsub candidates)).
Qed.

Lemma resolve_value_clean soup p v :
  resolve_value soup p = Some v -> Str.clean v = true.
Proof.
  rewrite resolve_value_chain. unfold resolve_chain_spec.
  destruct (Bs4.find_next_sibling soup p) as [sib|].
  - destruct (Str.nonempty (Bs4.text_at soup sib EmptyString true));
      [intros H; inversion H; apply Bs4Facts.text_at_strip_clean|].
    destruct (Bs4.parent p) as [parent|];
      [destruct (Bs4.find_next_sibling soup parent) as [nextp|];
       [destruct (Str.nonempty (Bs4.text_at soup nextp EmptyString true));
        [intros H; inversion H; apply Bs4Facts.text_at_strip_clean|]|]|];
      apply ReFacts.search_percent_number_clean.
  - destruct (Bs4.parent p) as [parent|];
      [destruct (Bs4.find_next_sibling soup parent) as [nextp|];
       [destruct (Str.nonempty (Bs4.text_at soup nextp EmptyString true));
        [intros H; inversion H; apply Bs4Facts.text_at_strip_clean|]|]|];
      apply ReFacts.search_percent_number_clean.
Qed.

(** X11. A value captured by discovery is never empty and has no
    whitespace at either end. *)
Theorem bound_values_are_nonempty_and_stripped soup cands label val :
  In (label, captured_val_lambda val) (discover soup cands) ->
  Str.nonempty val = true /\ Str.strip val = val.
Proof.
  intros Hin. apply discover_only_matched in Hin as [re [p [_ [_ He]]]].
  unfold discovered_extractor in He.
  destruct (resolve_value soup p) as [v|] eqn:Ev; [|discriminate].
  destruct (Str.nonempty v) eqn:En; [|discriminate].
  inversion He; subst v. split; [exact En|].
  apply StrFacts.clean_strip, (resolve_value_clean _ _ _ Ev).
Qed.

(** X12. The discovery-time resolver is the fallback chain: a non-empty
    sibling text, else a non-empty text of the parent's sibling, else the
    first numeric token of the label's text followed by its parent's. *)
Theorem discovery_follows_chain soup label_node :
  resolve_value soup label_node = resolve_chain_spec soup label_node /\
  resolve_value soup label_node <> Some EmptyString.
Proof.
  split; [apply resolve_value_chain|].
  intros H. rewrite resolve_value_chain in H. unfold resolve_chain_spec in H.
  assert (Hs : forall s, Re.search_percent_number s <> Some EmptyString).
  { intros s Hs. apply search_percent_number_nonempty in Hs. discriminate. }
  destruct (Bs4.find_next_sibling soup label_node) as [sib|].
  - destruct (Str.nonempty (Bs4.text_at soup sib EmptyString true)) eqn:Es;
      [inversion H as [H']; rewrite H' in Es; discriminate|].
    destruct (Bs4.parent label_node) as [parent|];
      [destruct (Bs4.find_next_sibling soup parent) as [nextp|];
       [destruct (Str.nonempty (Bs4.text_at soup nextp EmptyString true)) eqn:En;
        [inversion H as [H']; rewrite H' in En; discriminate|]|]|];
      exact (Hs _ H).
  - destruct (Bs4.parent label_node) as [parent|];
      [destruct (Bs4.find_next_sibling soup parent) as [nextp|];
       [destruct (Str.nonempty (Bs4.text_at soup nextp EmptyString true)) eqn:En;
        [inversion H as [H']; rewrite H' in En; discriminate|]|]|];
      exact (Hs _ H).
Qed.

(** *** The numeric token of a text followed by a blank and more text *)

Lemma append_cons c a b :
  String.append (String c a) b = String c (String.append a b).
Proof. reflexivity. Qed.

Lemma span_digits_append s c b :
  Str.is_digit c = false ->
  Re.span_digits (String.append s (String c b))
  = (fst (Re.span_digits s),
     String.append (snd (Re.span_digits s)) (String c b)).
Proof.
  intros Hc. induction s as [|x s IH].
  - change (String.append EmptyString (String c b)) with (String c b).
    simpl. rewrite Hc. reflexivity.
  - rewrite append_cons. simpl. destruct (Str.is_digit x); [|reflexivity].
    rewrite IH. destruct (Re.span_digits s) as [d r]. reflexivity.
Qed.

Lemma percent_number_append s c b t :
  Str.is_digit c = false -> Ascii.eqb c "." = false ->
  Ascii.eqb c "%" = false ->
  Re.percent_number s = Some t ->
  Re.percent_number (String.append s (String c b)) = Some t.
Proof.
  intros Hd Hdot Hpc. unfold Re.percent_number, Re.unsigned_number.
  rewrite (span_digits_append s c b Hd).
  destruct (Re.span_digits s) as [d r]. cbn [fst snd].
  destruct (Str.nonempty d); [|discriminate].
  destruct r as [|c' r'].
  - change (String.append EmptyString (String c b)) with (String c b).
    cbv iota beta. rewrite Hdot. cbn [andb].
    destruct (Re.span_digits b) as [f r'']. cbv iota beta.
    rewrite Hpc. intros H; exact H.
  - rewrite append_cons. rewrite (span_digits_append r' c b Hd).
    destruct (Re.span_digits r') as [f r'']. cbn [fst snd].
    destruct (Ascii.eqb c' "." && Str.nonempty f); cbv iota beta.
    + destruct r'' as [|c2 r2].
      * change (String.append EmptyString (String c b)) with (String c b).
        cbv iota beta. rewrite Hpc. intros H; exact H.
      * rewrite append_cons. intros H; exact H.
    + intros H; exact H.
Qed.

Lemma search_percent_number_append a c b t :
  Str.is_digit c = false -> Ascii.eqb c "." = false ->
  Ascii.eqb c "%" = false ->
  Re.search_percent_number a = Some t ->
  Re.search_percent_number (String.append a (String c b)) = Some t.
Proof.
  intros Hd Hdot Hpc. induction a as [|x a IH]; [discriminate|].
  rewrite append_cons. simpl.
  destruct (Re.percent_number (String x a)) as [t'|] eqn:Ep.
  - intros H. inversion H; subst t'.
    rewrite <- append_cons.
    rewrite (percent_number_append _ c b t Hd Hdot Hpc Ep). reflexivity.
  - intros H. apply (proj1 (percent_number_digit x a)) in Ep.
    rewrite (proj2 (percent_number_digit x (String.append a (String c b))) Ep).
    exact (IH H).
Qed.

(** X13. Whenever the lazy extractor yields a non-empty value, it is the
    value the discovery-time resolver yields for the same label node of
    the same document. *)
Theorem lazy_value_is_discovery_value re soup p :
  Bs4.find soup (is_label re) = Some p ->
  truthy (lazy_extract re soup) = true ->
  resolve_value soup p = lazy_extract re soup.
Proof.
  intros Hf. rewrite resolve_value_chain.
  unfold lazy_extract, resolve_chain_spec. rewrite Hf.
  assert (Hblank : forall a b t,
            Re.search_percent_number a = Some t ->
            Re.search_percent_number (String.append a (String.append " " b))
            = Some t).
  { intros a b t H.
    change (String.append " " b) with (String " "%char b).
    apply search_percent_number_append; [reflexivity .. | exact H]. }
  destruct (Bs4.find_next_sibling soup p) as [sib|].
  { simpl. intros Ht. rewrite Ht. reflexivity. }
  destruct (Bs4.parent p) as [parent|].
  - destruct (Bs4.find_next_sibling soup parent) as [nextp|].
    + simpl. intros Ht. rewrite Ht. reflexivity.
    + destruct (Re.search_percent_number (Bs4.text_at soup p " " false))
        as [t|] eqn:Et; [|discriminate].
      intros _. apply Hblank, Et.
  - destruct (Re.search_percent_number (Bs4.text_at soup p " " false))
      as [t|] eqn:Et; [|discriminate].
    intros _. apply Hblank, Et.
Qed.

(** *** [MetricBase] *)

(** X17. On a metric whose extractor is the lambda discovery stores for a
    resolved value, [fetch_raw] returns a function object whenever the
    fetch succeeds, and [get_value] raises [AttributeError]. *)
Theorem bound_metric_get_value_raises cls val url w soup :
  url_set (sofascore_url cls) = Some url ->
  _extractor cls = Some (captured_val_lambda val) ->
  web E (_get_scraper cls) url (List.length (fetched w)) = Page soup ->
  fst (fetch_raw E cls w) = Ok (PyFunction soup) /\
  fst (get_value E cls w)
  = Raise (AttributeError "'function' object has no attribute 'strip'").
Proof.
  intros Hu He Hw.
  assert (Hraw : fetch_raw E cls w
                 = (Ok (PyFunction soup),
                    World (clock w) (fetched w ++ [(_get_scraper cls, url)]))).
  { rewrite fetch_raw_unfold, Hu, He. cbn zeta. rewrite Hw. reflexivity. }
  split; [rewrite Hraw; reflexivity|].
  unfold get_value, bind. rewrite Hraw. reflexivity.
Qed.

(** X18. A selector metric of the Playwright backend still fetches on
    every [fetch_raw], but what it returns is read from the page
    captured when the registry was built, whatever page the fetch
    brings. *)
Theorem playwright_selector_metric_ignores_fetched_page cls soup0 sel url w soup :
  url_set (sofascore_url cls) = Some url ->
  _extractor cls = Some (make_extractor_playwright soup0 sel) ->
  web E (_get_scraper cls) url (List.length (fetched w)) = Page soup ->
  fetch_raw E cls w
  = (Ok (of_optional (extract_by_selector E soup0 sel)),
     World (clock w) (fetched w ++ [(_get_scraper cls, url)])).
Proof.
  intros Hu He Hw.
  rewrite fetch_raw_unfold, Hu, He. cbn zeta. rewrite Hw. reflexivity.
Qed.

(** X19. [get_value] leaves the world exactly as [fetch_raw] does (one
    fetch when the class is configured, none otherwise) and raises
    whatever [fetch_raw] raises. *)
Theorem get_value_fetches_like_fetch_raw cls w :
  snd (get_value E cls w) = snd (fetch_raw E cls w) /\
  forall e, fst (fetch_raw E cls w) = Raise e ->
            fst (get_value E cls w) = Raise e.
Proof.
  unfold get_value, bind.
  destruct (fetch_raw E cls w) as [[raw|e] w1].
  - split; [destruct raw; reflexivity | discriminate].
  - split; [reflexivity | intros e' H; exact H].
Qed.

(** *** Numbers and digits *)

Lemma unsigned_number_none s :
  Re.unsigned_number s = None <->
  match s with
  | String c _ => Str.is_digit c = false
  | EmptyString => True
  end.
Proof.
  unfold Re.unsigned_number. destruct s as [|c s]; [split; auto|].
  simpl. destruct (Str.is_digit c).
  - destruct (Re.span_digits s) as [d r]. cbn [Str.nonempty].
    split; [|discriminate].
    destruct r as [|c' r']; [discriminate|].
    destruct (Re.span_digits r') as [f r''].
    destruct (Ascii.eqb c' "." && Str.nonempty f); discriminate.
  - simpl. split; reflexivity.
Qed.

Lemma minus_is_no_digit c : Ascii.eqb c "-" = true -> Str.is_digit c = false.
Proof. intros H. apply Ascii.eqb_eq in H. subst c. reflexivity. Qed.

Lemma signed_number_none c s :
  Str.is_digit c = false -> Str.has_digit s = false ->
  Re.signed_number (String c s) = None.
Proof.
  intros Hc Hs. unfold Re.signed_number.
  destruct (Ascii.eqb c "-").
  - assert (H : Re.unsigned_number s = None).
    { apply unsigned_number_none. destruct s as [|x s]; [exact I|].
      simpl in Hs. apply orb_false_elim in Hs as [Hx _]. exact Hx. }
    rewrite H. reflexivity.
  - apply unsigned_number_none. exact Hc.
Qed.

Lemma signed_number_some_digit c s :
  Str.is_digit c = true -> Re.signed_number (String c s) <> None.
Proof.
  intros Hc. unfold Re.signed_number.
  destruct (Ascii.eqb c "-") eqn:Em.
  - rewrite (minus_is_no_digit _ Em) in Hc. discriminate.
  - intros H. apply unsigned_number_none in H. congruence.
Qed.

(** The signed pattern is found exactly when there is a digit. *)
Lemma search_signed_number_none s :
  Re.search_signed_number s = None <-> Str.has_digit s = false.
Proof.
  induction s as [|c s IH]; [split; reflexivity|].
  rewrite ReFacts.search_signed_number_unfold. simpl Str.has_digit.
  destruct (Re.signed_number (String c s)) as [[t r]|] eqn:Es.
  - split; [discriminate|]. intros H.
    apply orb_false_elim in H as [Hc Hs].
    rewrite (signed_number_none c s Hc Hs) in Es. discriminate.
  - destruct (Str.is_digit c) eqn:Hc.
    + exfalso. exact (signed_number_some_digit c s Hc Es).
    + simpl. exact IH.
Qed.

Lemma space_is_no_digit c : Str.is_space c = true -> Str.is_digit c = false.
Proof.
  intros H. destruct (Str.is_digit c) eqn:Hd; [|reflexivity].
  rewrite (StrFacts.digit_nonspace c Hd) in H. discriminate.
Qed.

Lemma has_digit_lstrip s : Str.has_digit (Str.lstrip s) = Str.has_digit s.
Proof.
  induction s as [|c s IH]; [reflexivity|]. simpl.
  destruct (Str.is_space c) eqn:Hc; [|reflexivity].
  rewrite (space_is_no_digit c Hc). exact IH.
Qed.

Lemma has_digit_rstrip s : Str.has_digit (Str.rstrip s) = Str.has_digit s.
Proof.
  induction s as [|c s IH]; [reflexivity|]. simpl.
  destruct (Str.rstrip s) as [|d r] eqn:Er.
  - simpl in IH. rewrite <- IH.
    destruct (Str.is_space c) eqn:Hc; simpl.
    + rewrite (space_is_no_digit c Hc). reflexivity.
    + reflexivity.
  - simpl. simpl in IH. rewrite IH. reflexivity.
Qed.

Lemma has_digit_strip s : Str.has_digit (Str.strip s) = Str.has_digit s.
Proof. unfold Str.strip. rewrite has_digit_rstrip. apply has_digit_lstrip. Qed.

(** X20. [get_value] turns a raw string into a number exactly when the
    string holds a digit; a string without digits comes back trimmed. *)
Theorem parse_raw_number_iff_digit raw :
  (Str.has_digit raw = true -> exists q, parse_raw raw = PyFloat q) /\
  (Str.has_digit raw = false -> parse_raw raw = PyStr (Str.strip raw)).
Proof.
  unfold parse_raw. rewrite <- (has_digit_strip raw).
  destruct (Re.match_number_percent (Str.strip raw)) as [g|] eqn:Em.
  - split.
    + intros _. exists (float g).
      destruct (Str.endswith (Str.strip raw) "%"); reflexivity.
    + intros Hd. apply match_number_search in Em.
      apply search_signed_number_none in Hd. congruence.
  - destruct (Re.search_signed_number (Str.strip raw)) as [g|] eqn:Es.
    + split; [intros _; exists (float g); reflexivity|].
      intros Hd. apply search_signed_number_none in Hd. congruence.
    + split; [|reflexivity].
      intros Hd. apply search_signed_number_none in Es. congruence.
Qed.

(** *** The first token of a string and of the string trimmed *)

Lemma rstrip_cons c s :
  (Str.rstrip (String c s) = EmptyString /\
   Str.is_space c = true /\ Str.rstrip s = EmptyString) \/
  Str.rstrip (String c s) = String c (Str.rstrip s).
Proof.
  simpl. destruct (Str.rstrip s) as [|d r].
  - destruct (Str.is_space c).
    + left. split; [reflexivity|]. split; reflexivity.
    + right. reflexivity.
  - right. reflexivity.
Qed.

Lemma span_digits_rstrip s :
  Re.span_digits (Str.rstrip s)
  = (fst (Re.span_digits s), Str.rstrip (snd (Re.span_digits s))).
Proof.
  induction s as [|c s IH]; [reflexivity|].
  destruct (Str.is_digit c) eqn:Hd.
  - assert (Hr : Str.rstrip (String c s) = String c (Str.rstrip s)).
    { destruct (rstrip_cons c s) as [[_ [Hsp _]]|H]; [|exact H].
      rewrite (space_is_no_digit c Hsp) in Hd. discriminate. }
    rewrite Hr. cbn [Re.span_digits]. rewrite Hd, IH.
    destruct (Re.span_digits s) as [d r]. reflexivity.
  - cbn [Re.span_digits]. rewrite Hd. cbn [fst snd].
    destruct (rstrip_cons c s) as [[H _]|H]; rewrite H; [reflexivity|].
    cbn [Re.span_digits]. rewrite Hd. reflexivity.
Qed.

Lemma space_is_no_dot c : Str.is_space c = true -> Ascii.eqb c "." = false.
Proof.
  intros H. destruct (Ascii.eqb c ".") eqn:Ec; [|reflexivity].
  apply Ascii.eqb_eq in Ec. subst c. vm_compute in H. discriminate.
Qed.

Lemma space_is_no_minus c : Str.is_space c = true -> Ascii.eqb c "-" = false.
Proof.
  intros H. destruct (Ascii.eqb c "-") eqn:Ec; [|reflexivity].
  apply Ascii.eqb_eq in Ec. subst c. vm_compute in H. discriminate.
Qed.

(** Trimming the right end leaves the token at the start as it is. *)
Lemma unsigned_number_rstrip s :
  option_map fst (Re.unsigned_number (Str.rstrip s))
  = option_map fst (Re.unsigned_number s).
Proof.
  unfold Re.unsigned_number. rewrite span_digits_rstrip.
  destruct (Re.span_digits s) as [d r]. cbn [fst snd].
  destruct (Str.nonempty d); [|reflexivity].
  destruct r as [|c r']; [reflexivity|].
  destruct (rstrip_cons c r') as [[H [Hsp _]]|H]; rewrite H.
  - rewrite (space_is_no_dot c Hsp).
    destruct (Re.span_digits r') as [f r'']. reflexivity.
  - rewrite span_digits_rstrip.
    destruct (Re.span_digits r') as [f r'']. cbn [fst snd].
    destruct (Ascii.eqb c "." && Str.nonempty f); reflexivity.
Qed.

Lemma signed_number_rstrip s :
  option_map fst (Re.signed_number (Str.rstrip s))
  = option_map fst (Re.signed_number s).
Proof.
  destruct s as [|c s]; [reflexivity|].
  destruct (rstrip_cons c s) as [[H [Hsp Hs]]|H]; rewrite H.
  - rewrite (signed_number_none c s (space_is_no_digit c Hsp));
      [reflexivity|].
    rewrite <- has_digit_rstrip, Hs. reflexivity.
  - unfold Re.signed_number. destruct (Ascii.eqb c "-").
    + pose proof (unsigned_number_rstrip s) as Hu.
      destruct (Re.unsigned_number (Str.rstrip s)) as [[t r]|];
        destruct (Re.unsigned_number s) as [[t' r']|];
        simpl in Hu |- *; congruence.
    + rewrite <- H. apply unsigned_number_rstrip.
Qed.

Lemma search_signed_number_rstrip s :
  Re.search_signed_number (Str.rstrip s) = Re.search_signed_number s.
Proof.
  induction s as [|c s IH]; [reflexivity|].
  pose proof (signed_number_rstrip (String c s)) as Hn.
  destruct (rstrip_cons c s) as [[H [Hsp Hs]]|H]; rewrite H in Hn |- *.
  - change (Re.search_signed_number EmptyString) with (@None string).
    symmetry. apply (proj2 (search_signed_number_none (String c s))).
    rewrite <- has_digit_rstrip, H. reflexivity.
  - rewrite (ReFacts.search_signed_number_unfold (String c s)),
      (ReFacts.search_signed_number_unfold (String c (Str.rstrip s))).
    destruct (Re.signed_number (String c (Str.rstrip s))) as [[t r]|];
      destruct (Re.signed_number (String c s)) as [[t' r']|];
      simpl in Hn; first [congruence | exact IH].
Qed.

Lemma search_signed_number_lstrip s :
  Re.search_signed_number (Str.lstrip s) = Re.search_signed_number s.
Proof.
  induction s as [|c s IH]; [reflexivity|].
  cbn [Str.lstrip]. destruct (Str.is_space c) eqn:Hsp; [|reflexivity].
  rewrite IH, (ReFacts.search_signed_number_unfold (String c s)).
  assert (Hn : Re.signed_number (String c s) = None).
  { unfold Re.signed_number. rewrite (space_is_no_minus c Hsp).
    apply unsigned_number_none. apply space_is_no_digit, Hsp. }
  rewrite Hn. reflexivity.
Qed.

(** The first numeric token of a string is that of the string trimmed. *)
Lemma search_signed_number_strip s :
  Re.search_signed_number (Str.strip s) = Re.search_signed_number s.
Proof.
  unfold Str.strip. rewrite search_signed_number_rstrip.
  apply search_signed_number_lstrip.
Qed.

(** Lines 209-222 on every string: the amended reading. *)
Lemma parse_raw_amended raw : parse_raw raw = get_value_amended (Some raw).
Proof.
  unfold parse_raw, get_value_amended.
  rewrite <- (search_signed_number_strip raw).
  destruct (whole_number (Str.strip raw)) as [t|] eqn:W.
  - rewrite (whole_number_match _ _ W).
    destruct (Str.endswith (Str.strip raw) "%"); reflexivity.
  - destruct (Re.match_number_percent (Str.strip raw)) as [g|] eqn:G;
      [|reflexivity].
    rewrite (match_number_search _ _ G).
    destruct (Str.endswith (Str.strip raw) "%"); reflexivity.
Qed.

(** C3, amended. On every raw string the body of [get_value] returns the
    number when the whole trimmed string is an optional minus sign,
    digits, an optional fraction and an optional percent sign (the
    magnitude is not scaled); else the first embedded numeric token as a
    number; else the trimmed string.  And whenever [fetch_raw] returns a
    string or no value, [get_value] returns that reading of it (no value
    for no value) and leaves the world as [fetch_raw] left it. *)
Theorem get_value_coerces_or_trims :
  (forall raw, parse_raw raw = get_value_amended (Some raw)) /\
  (forall cls w raw w',
     fetch_raw E cls w = (Ok (of_optional raw), w') ->
     get_value E cls w = (Ok (get_value_amended raw), w')).
Proof.
  split; [exact parse_raw_amended|].
  intros cls w raw w' H. unfold get_value, bind. rewrite H.
  destruct raw as [raw|]; simpl; [|reflexivity].
  unfold ret. rewrite parse_raw_amended. reflexivity.
Qed.

(** *** [refresh] *)


(** A delay that counts as false is one [time.sleep] would accept. *)
Lemma falsy_delay_is_accepted v w :
  float_truthy v = false -> fst (time_sleep v w) = Ok tt.
Proof.
  destruct v as [q| |]; [|discriminate ..]. cbn [float_truthy].
  intros Hz. apply negb_false_iff, Qeq_bool_iff in Hz.
  rewrite time_sleep_accepts by lra. reflexivity.
Qed.

(** What [refresh] does with a delay that is not zero and that
    [time.sleep] refuses. *)
Lemma refresh_refused cls v w e :
  float_truthy v = true -> time_sleep v w = (Raise e, w) ->
  refresh E cls v w = (Raise e, w).
Proof.
  intros Ht Hs. unfold refresh, bind. rewrite Ht, Hs. reflexivity.
Qed.

(** X21. A delay [time.sleep] refuses makes [refresh] raise the error of
    [time.sleep] with the world untouched: nothing is fetched and no time
    passes.  A negative delay down to minus nine thousand million seconds
    is refused with [ValueError]; a delay of ten thousand million seconds
    or more, either way, and an infinity, with [OverflowError]; a NaN
    with [ValueError]. *)
Theorem refresh_refused_delay_never_fetches cls w :
  (forall v e, fst (time_sleep v w) = Raise e ->
     refresh E cls v w = (Raise e, w)) /\
  (forall d, (- (9000000000 # 1) <= d)%Q -> (d < 0)%Q ->
     refresh E cls (Finite d) w
     = (Raise (ValueError "sleep length must be non-negative"), w)) /\
  (forall d, (d <= - (10000000000 # 1))%Q \/ (10000000000 # 1 <= d)%Q ->
     refresh E cls (Finite d) w
     = (Raise (OverflowError "timestamp too large to convert to C _PyTime_t"),
        w)) /\
  (forall negative,
     refresh E cls (Infinity negative) w
     = (Raise (OverflowError "timestamp too large to convert to C _PyTime_t"),
        w)) /\
  refresh E cls NaN w
  = (Raise (ValueError "Invalid value NaN (not a number)"), w).
Proof.
  split; [|split; [|split; [|split]]].
  - intros v e H.
    destruct (float_truthy v) eqn:Ht.
    + apply refresh_refused; [exact Ht|].
      destruct (time_sleep v w) as [r w1] eqn:Hs. simpl in H. subst r.
      rewrite (time_sleep_raise_world _ _ _ _ Hs). reflexivity.
    + rewrite (falsy_delay_is_accepted v w Ht) in H. discriminate.
  - intros d Hlo Hneg. apply refresh_refused.
    + cbn [float_truthy]. apply negb_true_iff.
      destruct (Qeq_bool d 0) eqn:Hq; [|reflexivity].
      apply Qeq_bool_iff in Hq. exfalso. lra.
    + unfold time_sleep. rewrite fits_nanoseconds_within by lra. cbn [negb].
      destruct (Qle_bool 0 d) eqn:Hle; [|reflexivity].
      apply Qle_bool_iff in Hle. exfalso. lra.
  - intros d Hd. apply refresh_refused.
    + cbn [float_truthy]. apply negb_true_iff.
      destruct (Qeq_bool d 0) eqn:Hq; [|reflexivity].
      apply Qeq_bool_iff in Hq. exfalso. destruct Hd; lra.
    + unfold time_sleep. rewrite (fits_nanoseconds_beyond d Hd). reflexivity.
  - intros negative. reflexivity.
  - reflexivity.
Qed.


(** *** The identifier *)

Lemma length_append a b :
  String.length (String.append a b) = String.length a + String.length b.
Proof.
  induction a as [|c a IH]; [reflexivity|].
  rewrite append_cons. simpl. rewrite IH. reflexivity.
Qed.

Lemma substring_all b : substring 0 (String.length b) b = b.
Proof. induction b as [|c b IH]; [reflexivity|]. simpl. rewrite IH. reflexivity. Qed.

Lemma substring_suffix a b :
  substring (String.length a) (String.length b) (String.append a b) = b.
Proof.
  induction a as [|c a IH]; [apply substring_all|].
  rewrite append_cons. simpl. exact IH.
Qed.

Lemma endswith_append a suffix : Str.endswith (String.append a suffix) suffix = true.
Proof.
  unfold Str.endswith. rewrite length_append.
  replace (String.length a + String.length suffix - String.length suffix)
    with (String.length a) by lia.
  rewrite substring_suffix, String.eqb_refl.
  apply andb_true_intro. split; [apply Nat.leb_le; lia | reflexivity].
Qed.

Lemma filter_append p a b :
  Str.filter p (String.append a b)
  = String.append (Str.filter p a) (Str.filter p b).
Proof.
  induction a as [|c a IH]; [reflexivity|].
  rewrite append_cons. simpl. rewrite IH. destruct (p c); reflexivity.
Qed.

Lemma filter_filter p s : Str.filter p (Str.filter p s) = Str.filter p s.
Proof.
  induction s as [|c s IH]; [reflexivity|]. simpl.
  destruct (p c) eqn:Hc; [simpl; rewrite Hc, IH; reflexivity | exact IH].
Qed.

(** X8. Whatever the metric name, the generated identifier ends with the
    suffix, is not empty and holds nothing but ASCII letters and
    digits. *)
Theorem class_name_is_suffixed_alphanumeric name :
  Str.endswith (class_name_of name) "Metric" = true /\
  Str.nonempty (class_name_of name) = true /\
  Str.filter Str.is_alnum (class_name_of name) = class_name_of name.
Proof.
  unfold class_name_of. unfold stem at 1.
  pose proof (filter_filter Str.is_alnum (Str.title name)) as Hff.
  fold (stem name) in Hff |- *.
  destruct (stem name) as [|c s] eqn:Es; [repeat split; reflexivity|].
  cbn [Str.nonempty].
  destruct (Str.endswith (String c s) "Metric") eqn:Hend.
  - split; [exact Hend|]. split; [reflexivity | exact Hff].
  - split; [apply endswith_append|]. split; [reflexivity|].
    rewrite filter_append, Hff. reflexivity.
Qed.

(** X7. When several names share an identifier (and no stem ends with the
    suffix), the class found under it is the one of the name registered
    last; the keys of the mapping are the registered names, in order; and
    the mapping sends every registered name with that identifier, the
    earlier ones and the last one, to that same class and to no other. *)
Theorem colliding_names_last_registered_wins url sc before name e after w :
  (forall n x, In (n, x) (before ++ (name, e) :: after) ->
     Str.endswith (stem n) "Metric" = false) ->
  (forall n x, In (n, x) after -> class_name_of n <> class_name_of name) ->
  exists cls mapping,
    register url sc (before ++ (name, e) :: after) (OwnerClass ∅ None) w
    = (Ok cls, w) /\
    attrs cls !! class_name_of name
    = Some (MetricClass name (Some url) (Some e) (Some sc)) /\
    _discovered_metrics cls = Some mapping /\
    List.map fst mapping = List.map fst (before ++ (name, e) :: after) /\
    (forall k x, In (k, x) (before ++ (name, e) :: after) ->
       class_name_of k = class_name_of name ->
       In (k, MetricClass name (Some url) (Some e) (Some sc)) mapping) /\
    (forall k c, In (k, c) mapping -> class_name_of k = class_name_of name ->
                 c = MetricClass name (Some url) (Some e) (Some sc)).
Proof.
  intros Hstems Hafter.
  destruct (register_ok url sc (before ++ (name, e) :: after)
              (OwnerClass ∅ None) w Hstems)
    as [cls [Hreg [Hattrs [mapping [Hmap [Hkeys Hall]]]]]].
  assert (Hlast : attrs cls !! class_name_of name
                  = Some (MetricClass name (Some url) (Some e) (Some sc))).
  { rewrite Hattrs. apply attach_last_wins. exact Hafter. }
  assert (Hsame : forall k c, In (k, c) mapping ->
                    class_name_of k = class_name_of name ->
                    c = MetricClass name (Some url) (Some e) (Some sc)).
  { intros k c Hin Hk. apply Hall in Hin. rewrite Hk, Hlast in Hin.
    inversion Hin. reflexivity. }
  exists cls, mapping. split; [exact Hreg|]. split; [exact Hlast|].
  split; [exact Hmap|]. split; [exact Hkeys|]. split; [|exact Hsame].
  intros k x Hin Hk.
  assert (Hkey : In k (List.map fst mapping)).
  { rewrite Hkeys. apply in_map_iff. exists (k, x).
    split; [reflexivity | exact Hin]. }
  apply in_map_iff in Hkey as [[k' c] [Hk' Hc]]. simpl in Hk'. subst k'.
  rewrite <- (Hsame k c Hc Hk). exact Hc.
Qed.

End Further.

(** ** The label node and the tags around it *)

Module LabelFacts.

Import Bs4.

Lemma string_app_nil_r s : String.append s EmptyString = s.
Proof.
  induction s as [|c s IH]; [reflexivity|].
  change (String c (String.append s EmptyString) = String c s).
  rewrite IH. reflexivity.
Qed.

Lemma string_app_assoc a b c :
  String.append (String.append a b) c = String.append a (String.append b c).
Proof.
  induction a as [|x a IH]; [reflexivity|].
  change (String x (String.append (String.append a b) c)
          = String x (String.append a (String.append b c))).
  rewrite IH. reflexivity.
Qed.

(** *** Unanchored patterns match in every text around a match *)

Lemma matches_extend r :
  anchor_free r = true ->
  forall st st' s b (k k' : bool -> string -> bool),
    (forall st1 st1' s1, k st1 s1 = true -> k' st1' (String.append s1 b) = true) ->
    Re.matches r st s k = true ->
    Re.matches r st' (String.append s b) k' = true.
Proof.
  induction r as [|c|r1 IH1 r2 IH2|r1 IH1 r2 IH2|r1 IH1| |];
    simpl; intros Hr st st' s b k k' Hk H; try discriminate.
  - apply (Hk _ _ _ H).
  - destruct s as [|d s]; [discriminate|].
    change (String.append (String d s) b) with (String d (String.append s b)).
    apply andb_prop in H as [H1 H2]. rewrite H1. simpl. apply (Hk _ _ _ H2).
  - apply andb_prop in Hr as [Hr1 Hr2].
    apply (IH1 Hr1 st st' s b (fun b0 s' => Re.matches r2 b0 s' k)); [|exact H].
    intros st1 st1' s1 H1. apply (IH2 Hr2 st1 st1' s1 b k k' Hk H1).
  - apply andb_prop in Hr as [Hr1 Hr2]. apply orb_prop in H as [H | H].
    + rewrite (IH1 Hr1 st st' s b k k' Hk H). reflexivity.
    + rewrite (IH2 Hr2 st st' s b k k' Hk H). apply orb_true_r.
  - apply orb_prop in H as [H | H].
    + rewrite (IH1 Hr st st' s b k k' Hk H). reflexivity.
    + rewrite (Hk _ _ _ H). apply orb_true_r.
Qed.

Lemma search_from_unfold r st s :
  Re.search_from r st s =
  Re.matches r st s (fun _ _ => true) ||
  match s with
  | EmptyString => false
  | String _ s' => Re.search_from r false s'
  end.
Proof. destruct s; reflexivity. Qed.

Lemma search_from_extend_right r st st' s b :
  anchor_free r = true ->
  Re.search_from r st s = true ->
  Re.search_from r st' (String.append s b) = true.
Proof.
  intros Hr. revert st st'. induction s as [|c s IH]; intros st st' H;
    rewrite search_from_unfold in H; apply orb_prop in H as [H | H].
  - rewrite search_from_unfold.
    rewrite (matches_extend r Hr st st' EmptyString b
               (fun _ _ => true) (fun _ _ => true));
      [reflexivity | reflexivity | exact H].
  - discriminate.
  - rewrite search_from_unfold.
    rewrite (matches_extend r Hr st st' (String c s) b
               (fun _ _ => true) (fun _ _ => true));
      [reflexivity | reflexivity | exact H].
  - change (String.append (String c s) b) with (String c (String.append s b)).
    rewrite search_from_unfold, (IH false false H). apply orb_true_r.
Qed.

Lemma search_from_extend_left r st st' a s :
  anchor_free r = true ->
  Re.search_from r st' s = true ->
  Re.search_from r st (String.append a s) = true.
Proof.
  intros Hr H. revert st. induction a as [|c a IH]; intros st.
  - change (String.append EmptyString s) with s.
    rewrite <- (string_app_nil_r s).
    apply (search_from_extend_right r st' st s EmptyString Hr H).
  - change (String.append (String c a) s) with (String c (String.append a s)).
    rewrite search_from_unfold, (IH false). apply orb_true_r.
Qed.

Lemma search_around r a s b :
  anchor_free r = true -> Re.search r s = true ->
  Re.search r (String.append a (String.append s b)) = true.
Proof.
  intros Hr H. unfold Re.search in *.
  apply search_from_extend_left with (st' := true); [exact Hr|].
  apply search_from_extend_right with (st := true); assumption.
Qed.

(** *** The text of a node within the text of a tag around it *)

Lemma join_app sep l l' :
  l <> [] -> l' <> [] ->
  Str.join sep (l ++ l')
  = String.append (Str.join sep l) (String.append sep (Str.join sep l')).
Proof.
  intros Hl Hl'. induction l as [|x l IH]; [congruence|].
  destruct l as [|y l].
  - destruct l' as [|z l']; [congruence | reflexivity].
  - change (Str.join sep ((x :: y :: l) ++ l'))
      with (String.append x (String.append sep (Str.join sep ((y :: l) ++ l')))).
    rewrite IH by discriminate.
    change (Str.join sep (x :: y :: l))
      with (String.append x (String.append sep (Str.join sep (y :: l)))).
    rewrite !string_app_assoc. reflexivity.
Qed.

Lemma join_middle sep l1 m l2 :
  m <> [] ->
  exists a b,
    Str.join sep (l1 ++ m ++ l2)
    = String.append a (String.append (Str.join sep m) b).
Proof.
  intros Hm.
  assert (Hright : exists b, Str.join sep (m ++ l2)
                             = String.append (Str.join sep m) b).
  { destruct l2 as [|z l2].
    - exists EmptyString. rewrite app_nil_r, string_app_nil_r. reflexivity.
    - eexists. apply join_app; [exact Hm | discriminate]. }
  destruct Hright as [b Hb].
  destruct l1 as [|x l1].
  - exists EmptyString, b. simpl app. rewrite Hb. reflexivity.
  - exists (String.append (Str.join sep (x :: l1)) sep), b.
    rewrite join_app; [|discriminate|destruct m; [congruence | discriminate]].
    rewrite Hb, !string_app_assoc. reflexivity.
Qed.

Lemma all_strings_within root r m :
  at_path root r = Some m ->
  exists l1 l2, all_strings root = l1 ++ all_strings m ++ l2.
Proof.
  revert root. induction r as [|i r IH]; intros root H.
  - inversion H; subst. exists [], []. rewrite app_nil_r. reflexivity.
  - simpl in H. destruct (nth_error (contents_of root) i) as [c|] eqn:Ec;
      [|discriminate].
    destruct (IH c H) as [l1 [l2 Hc]].
    destruct root as [s|nm cs]; [destruct i; discriminate|]. simpl in Ec.
    apply nth_error_split in Ec as [pre [post [Hcs _]]]. subst cs.
    exists (flat_map all_strings pre ++ l1), (l2 ++ flat_map all_strings post).
    simpl. rewrite flat_map_app. simpl. rewrite Hc, <- !app_assoc.
    reflexivity.
Qed.

Lemma stripped_nonempty l :
  Str.nonempty
    (Str.join EmptyString (List.filter Str.nonempty (List.map Str.strip l)))
  = true <->
  List.filter Str.nonempty (List.map Str.strip l) <> [].
Proof.
  split.
  - intros H Hnil. rewrite Hnil in H. discriminate.
  - intros H. apply (StrFacts.clean_join _ (Bs4Facts.stripped_pieces_clean l)).
    exact H.
Qed.

(** A tag of the five kinds around a node that [is_label] accepts is
    accepted too, when the pattern has no anchor. *)
Lemma is_label_around re root r m nm :
  anchor_free re = true ->
  at_path root r = Some m ->
  is_label re m = true ->
  name_of root = Some nm -> In nm label_tags ->
  is_label re root = true.
Proof.
  intros Hre Hat Hm Hnm Hin.
  destruct (all_strings_within root r m Hat) as [l1 [l2 Hs]].
  unfold is_label in *. rewrite Hnm.
  apply andb_prop in Hm as [Hm Hsearch]. apply andb_prop in Hm as [_ Htext].
  unfold get_text in *.
  assert (Hne : all_strings m <> []).
  { intros Hnil. rewrite Hnil in Htext. discriminate. }
  apply andb_true_intro. split; [apply andb_true_intro; split|].
  - apply existsb_exists. exists nm. split; [exact Hin | apply String.eqb_refl].
  - apply stripped_nonempty. apply stripped_nonempty in Htext.
    rewrite Hs, !List.map_app, !List.filter_app. intros Hnil.
    apply app_eq_nil in Hnil as [_ Hnil]. apply app_eq_nil in Hnil as [Hnil _].
    exact (Htext Hnil).
  - rewrite Hs. destruct (join_middle " " l1 (all_strings m) l2 Hne)
      as [a [b Hj]].
    rewrite Hj. apply search_around; assumption.
Qed.

(** *** The first match has no matching tag above it *)

Lemma first_such_app {A : Type} (f : A -> bool) l1 l2 :
  first_such f (l1 ++ l2) =
  match first_such f l1 with
  | Some x => Some x
  | None => first_such f l2
  end.
Proof.
  induction l1 as [|x l1 IH]; [reflexivity|]. simpl.
  destruct (f x); [reflexivity | exact IH].
Qed.

Lemma children_descendants_paths p i l q m :
  In (q, m) (children_descendants p i l) ->
  exists k c r, nth_error l k = Some c /\ q = p ++ (i + k)%nat :: r /\
                at_path c r = Some m.
Proof.
  revert i. induction l as [|c l IH]; intros i Hin; [destruct Hin|].
  change (In (q, m) ((p ++ [i], c) :: descendants (p ++ [i]) c
                       ++ children_descendants p (S i) l)) in Hin.
  destruct Hin as [Heq | Hin].
  - inversion Heq; subst. exists 0%nat, m, []. rewrite Nat.add_0_r.
    split; [|split]; reflexivity.
  - apply in_app_or in Hin as [Hin | Hin].
    + destruct (Bs4Facts.descendants_at_path _ _ _ _ Hin) as [r [Hq Hr]].
      exists 0%nat, c, r. rewrite Nat.add_0_r, Hq, <- app_assoc.
      split; [|split]; [reflexivity | reflexivity | exact Hr].
    + destruct (IH _ Hin) as [k [c' [r [Hk [Hq Hr]]]]].
      exists (S k), c', r. rewrite Nat.add_succ_r.
      split; [|split]; assumption.
Qed.

(** If the first descendant that [g] accepts is at [p ++ r1 ++ r2], then
    [g] rejects the node at [p ++ r1] above it. *)
Lemma first_such_rejects_ancestors (g : node -> bool) n :
  forall p q m,
    first_such (fun pn => g (snd pn)) (descendants p n) = Some (q, m) ->
    forall r1 r2 a,
      q = p ++ r1 ++ r2 -> r1 <> [] -> r2 <> [] ->
      at_path n r1 = Some a -> g a = false.
Proof.
  induction n as [s|nm cs IHcs] using Bs4Facts.node_induction;
    intros p q m Hfirst r1 r2 a Hq Hr1 Hr2 Hat; [discriminate|].
  change (descendants p (Tag nm cs)) with (children_descendants p 0 cs)
    in Hfirst.
  destruct r1 as [|j r1]; [congruence|]. simpl in Hat.
  destruct (nth_error cs j) as [cj|] eqn:Ej; [|discriminate].
  clear Hr1.
  assert (G : forall l i,
            Forall (fun n => forall p q m,
                      first_such (fun pn => g (snd pn)) (descendants p n)
                      = Some (q, m) ->
                      forall r1 r2 a, q = p ++ r1 ++ r2 -> r1 <> [] ->
                        r2 <> [] -> at_path n r1 = Some a -> g a = false) l ->
            first_such (fun pn => g (snd pn)) (children_descendants p i l)
            = Some (q, m) ->
            forall k c, q = p ++ ((i + k)%nat :: r1) ++ r2 ->
                        nth_error l k = Some c -> at_path c r1 = Some a ->
                        g a = false).
  { clear IHcs Hfirst Hq Ej Hat cj j cs nm.
    induction l as [|c l IHl]; intros i HF Hfirst k c0 Hq Hk Hat;
      [destruct k; discriminate|].
    pose proof (List.Forall_inv HF) as Hc.
    pose proof (List.Forall_inv_tail HF) as Hl.
    change (children_descendants p i (c :: l))
      with ((p ++ [i], c) :: descendants (p ++ [i]) c
              ++ children_descendants p (S i) l) in Hfirst.
    simpl in Hfirst.
    destruct (g c) eqn:Hgc.
    - injection Hfirst as Hp Hm. exfalso.
      rewrite Hq in Hp. apply app_inv_head in Hp. simpl in Hp.
      injection Hp as Hi Hnil.
      symmetry in Hnil. apply app_eq_nil in Hnil as [_ Hnil].
      exact (Hr2 Hnil).
    - rewrite first_such_app in Hfirst.
      destruct (first_such (fun pn => g (snd pn)) (descendants (p ++ [i]) c))
        as [[q' m']|] eqn:Hd.
      + injection Hfirst as Hq' Hm'. rewrite Hq', Hm' in Hd. clear Hq' Hm' q' m'.
        pose proof (Bs4Facts.first_such_some _ _ _ Hd) as [Hin _].
        destruct (Bs4Facts.descendants_at_path _ _ _ _ Hin) as [r [Hqr _]].
        rewrite Hq, <- app_assoc in Hqr. apply app_inv_head in Hqr.
        simpl in Hqr. injection Hqr as Hi Hr.
        assert (k = 0)%nat by lia. subst k. simpl in Hk.
        injection Hk as Hk. subst c0.
        destruct r1 as [|j1 r1'].
        * simpl in Hat. inversion Hat; subst a. exact Hgc.
        * apply (Hc (p ++ [i]) q m Hd (j1 :: r1') r2 a);
            [|discriminate | exact Hr2 | exact Hat].
          rewrite Hq, <- app_assoc. simpl. rewrite Nat.add_0_r. reflexivity.
      + pose proof (Bs4Facts.first_such_some _ _ _ Hfirst) as [Hin _].
        apply children_descendants_paths in Hin
          as [k' [c' [r [_ [Hqr _]]]]].
        rewrite Hq in Hqr. apply app_inv_head in Hqr. simpl in Hqr.
        injection Hqr as Hi Hr.
        destruct k as [|k]; [lia|]. simpl in Hk.
        apply (IHl (S i) Hl Hfirst k c0); [|exact Hk | exact Hat].
        rewrite Hq. simpl. rewrite Nat.add_succ_r. reflexivity. }
  apply (G cs 0%nat IHcs Hfirst j cj); [exact Hq | exact Ej | exact Hat].
Qed.

End LabelFacts.

(** For a pattern without anchors, the label node is outermost: no tag
    of the five kinds lies between the document and the label node. *)
Lemma outermost_match re soup p above below a nm :
  anchor_free re = true ->
  Bs4.find soup (is_label re) = Some p ->
  p = above ++ below -> above <> [] -> below <> [] ->
  Bs4.at_path soup above = Some a -> Bs4.name_of a = Some nm ->
  ~ In nm label_tags.
Proof.
  intros Hre Hfind Hp Habove Hbelow Hat Hnm Hin.
  unfold Bs4.find in Hfind.
  destruct (Bs4.first_such _ (Bs4.descendants [] soup)) as [[q m]|] eqn:Hfirst;
    [|discriminate].
  inversion Hfind; subst q.
  pose proof (Bs4Facts.first_such_some _ _ _ Hfirst) as [Hinq Hm].
  destruct (Bs4Facts.descendants_at_path _ _ _ _ Hinq) as [r [Hr Hatm]].
  simpl in Hr. subst r. simpl in Hm. apply andb_prop in Hm as [_ Hm].
  assert (Hrej : (Bs4.is_tag a && is_label re a) = false).
  { apply (LabelFacts.first_such_rejects_ancestors
             (fun n => Bs4.is_tag n && is_label re n) soup [] p m Hfirst
             above below a); [exact Hp | exact Habove | exact Hbelow | exact Hat]. }
  assert (Hbelow_at : Bs4.at_path a below = Some m).
  { clear -Hat Hatm Hp. subst p. revert soup Hat Hatm.
    induction above as [|i above IH]; intros soup Hat Hatm.
    - inversion Hat; subst. exact Hatm.
    - simpl in *. destruct (nth_error (Bs4.contents_of soup) i); [|discriminate].
      exact (IH _ Hat Hatm). }
  rewrite (LabelFacts.is_label_around re a below m nm Hre Hbelow_at Hm Hnm Hin)
    in Hrej.
  destruct a; [discriminate|]. discriminate.
Qed.

Section FurtherExtractors.

Variable E : env.

(** X9. A category is in the result of discovery exactly when some tag
    of the page satisfies its rule. *)
Theorem discover_lists_exactly_matched soup cands label :
  In label (List.map fst (discover soup cands)) <->
  exists re p, In (label, re) cands /\
               Bs4.find soup (is_label re) = Some p.
Proof.
  split.
  - intros H. apply in_map_iff in H as [[l e] [Hl Hin]]. simpl in Hl. subst l.
    apply discover_only_matched in Hin as [re [p [Hc [Hf _]]]].
    exists re, p. split; assumption.
  - intros [re [p [Hc Hf]]]. apply in_map_iff.
    exists (label, discovered_extractor soup re p).
    split; [reflexivity | exact (discover_all_matched _ _ _ _ _ Hc Hf)].
Qed.

(** X16. Every string [fetch_raw] returns is already stripped. *)
Theorem fetch_raw_returns_stripped cls w raw w' :
  fetch_raw E cls w = (Ok (PyStr raw), w') ->
  Str.strip raw = raw /\ Str.clean raw = true.
Proof.
  intros H. pose proof (fetch_raw_clean E _ _ _ _ H) as Hc.
  split; [apply StrFacts.clean_strip, Hc | exact Hc].
Qed.

End FurtherExtractors.

Lemma catalog_patterns_anchor_free label re :
  In (label, re) candidates -> label <> "Goals" -> anchor_free re = true.
Proof.
  intros H Hl. simpl in H.
  repeat (destruct H as [H | H];
          [inversion H; subst; first [reflexivity | congruence]|]).
  destruct H.
Qed.

(** X15. For every category of the source but "Goals" (whose pattern is
    anchored), the label node is outermost: no tag of the five kinds
    lies between the document and the label node. *)
Theorem label_node_is_outermost label re soup p above below a nm :
  In (label, re) candidates -> label <> "Goals" ->
  Bs4.find soup (is_label re) = Some p ->
  p = above ++ below -> above <> [] -> below <> [] ->
  Bs4.at_path soup above = Some a -> Bs4.name_of a = Some nm ->
  ~ In nm label_tags.
Proof.
  intros Hc Hl. apply outermost_match.
  exact (catalog_patterns_anchor_free label re Hc Hl).
Qed.

(** ** The further properties at concrete documents *)

(** X1, for one selector on the default backend. *)
Lemma explicit_mode_needs_no_fetch_witness :
  exists cls mapping,
    MetricMeta_new (env_of []) (Some url) None
      (Some [("Ball possession", "p")]) w0 = (Ok cls, w0) /\
    _discovered_metrics cls = Some mapping /\
    List.map fst mapping = List.map fst [("Ball possession", "p")] /\
    forall k c, In (k, c) mapping ->
      attrs cls !! class_name_of k = Some c /\
      sofascore_url c = Some url /\
      _scraper_instance c = Some RequestsScraper /\
      exists n s, In (n, s) [("Ball possession", "p")] /\
                  class_name_of n = class_name_of k /\
                  metric_name c = n /\ _extractor c = Some (make_extractor s).
Proof.
  apply (explicit_mode_needs_no_fetch (env_of []) url
           [("Ball possession", "p")] w0).
  - reflexivity.
  - discriminate.
  - intros n s [H | []]. inversion H; subst. vm_compute. reflexivity.
Defined.

(** X2, for the empty URL with selectors and the Playwright backend. *)
Lemma no_url_no_discovery_witness :
  MetricMeta_new (env_of [paragraph "61%"]) (Some "") (Some PlaywrightScraper)
    (Some [("Ball possession", "p")]) w0
  = (Ok (OwnerClass ∅ None), w0) /\
  forall key, attrs (OwnerClass ∅ None) !! key = None.
Proof.
  apply (no_url_no_discovery (env_of [paragraph "61%"]) (Some "")
           (Some PlaywrightScraper) (Some [("Ball possession", "p")]) w0).
  right. reflexivity.
Defined.

(** X3, for auto mode on a network that serves nothing. *)
Lemma discovery_fetch_failure_fails_construction_witness :
  MetricMeta_new (env_of []) (Some url) (Some RequestsScraper) None w0
  = (Raise (FetchError "timed out"),
     World (clock w0) (fetched w0 ++ [(RequestsScraper, url)])).
Proof.
  apply (discovery_fetch_failure_fails_construction (env_of []) url
           RequestsScraper None w0 "timed out").
  - reflexivity.
  - right. left. reflexivity.
  - reflexivity.
Defined.

(** X4, where the rendered page shows 61% and the plain page 55%. *)
Lemma playwright_auto_mode_discovers_on_requests_page_witness :
  find_metrics (env_of [possession ["61%"]; possession ["55%"]])
    PlaywrightScraper url None w0
  = (Ok (discover (possession ["55%"]) candidates),
     World (clock w0)
       (fetched w0 ++ [(PlaywrightScraper, url); (RequestsScraper, url)])).
Proof.
  apply (playwright_auto_mode_discovers_on_requests_page
           (env_of [possession ["61%"]; possession ["55%"]]) url w0
           (possession ["61%"]) (possession ["55%"]));
    reflexivity.
Defined.

(** X5, on the page that shows "Ball possession" next to "61%". *)
Lemma auto_mode_registers_discovered_labels_witness :
  exists cls mapping,
    MetricMeta_new (env_of [possession ["61%"]]) (Some url) None None w0
    = (Ok cls, World (clock w0) (fetched w0 ++ [(RequestsScraper, url)])) /\
    _discovered_metrics cls = Some mapping /\
    List.map fst mapping
    = List.map fst (discover (possession ["61%"]) candidates) /\
    forall k c, In (k, c) mapping ->
      attrs cls !! class_name_of k = Some c /\
      metric_name c = k /\
      exists re p, In (k, re) candidates /\
                   Bs4.find (possession ["61%"]) (is_label re) = Some p /\
                   _extractor c
                   = Some (discovered_extractor (possession ["61%"]) re p).
Proof.
  apply (auto_mode_registers_discovered_labels
           (env_of [possession ["61%"]]) url w0 (possession ["61%"]));
    reflexivity.
Defined.

(** X6, for the class generated from one selector. *)
Lemma generated_class_is_configured_witness :
  url_set (sofascore_url
             (metric "Ball possession" (make_extractor "p") RequestsScraper))
  <> None /\
  _extractor (metric "Ball possession" (make_extractor "p") RequestsScraper)
  <> None /\
  forall msg,
    fst (fetch_raw (env_of [])
           (metric "Ball possession" (make_extractor "p") RequestsScraper) w0)
    <> Raise (RuntimeError msg).
Proof.
  eapply (generated_class_is_configured (env_of []) (Some url) None
            (Some [("Ball possession", "p")]) w0 _ _ "BallPossessionMetric").
  - vm_compute. reflexivity.
  - vm_compute. reflexivity.
Defined.

(** X7, for "Ball possession" registered before "ball-possession". *)
Lemma colliding_names_last_registered_wins_witness :
  exists cls mapping,
    register url RequestsScraper
      ([("Ball possession", make_extractor "p")]
       ++ ("ball-possession", make_extractor "td") :: [])
      (OwnerClass ∅ None) w0
    = (Ok cls, w0) /\
    attrs cls !! class_name_of "ball-possession"
    = Some (MetricClass "ball-possession" (Some url)
              (Some (make_extractor "td")) (Some RequestsScraper)) /\
    _discovered_metrics cls = Some mapping /\
    List.map fst mapping
    = List.map fst ([("Ball possession", make_extractor "p")]
                    ++ ("ball-possession", make_extractor "td") :: []) /\
    (forall k x,
       In (k, x) ([("Ball possession", make_extractor "p")]
                  ++ ("ball-possession", make_extractor "td") :: []) ->
       class_name_of k = class_name_of "ball-possession" ->
       In (k, MetricClass "ball-possession" (Some url)
                (Some (make_extractor "td")) (Some RequestsScraper))
          mapping) /\
    (forall k c, In (k, c) mapping ->
                 class_name_of k = class_name_of "ball-possession" ->
                 c = MetricClass "ball-possession" (Some url)
                       (Some (make_extractor "td")) (Some RequestsScraper)).
Proof.
  apply (colliding_names_last_registered_wins url RequestsScraper
           [("Ball possession", make_extractor "p")] "ball-possession"
           (make_extractor "td") [] w0).
  - intros n x [H | [H | []]]; inversion H; subst; vm_compute; reflexivity.
  - intros n x [].
Defined.

(** X11, for the value bound on the page that shows 61%. *)
Lemma bound_values_are_nonempty_and_stripped_witness :
  In ("Ball possession", captured_val_lambda "61%")
    (discover (possession ["61%"]) candidates) /\
  Str.nonempty "61%" = true /\ Str.strip "61%" = "61%".
Proof.
  assert (H : In ("Ball possession", captured_val_lambda "61%")
                (discover (possession ["61%"]) candidates)).
  { vm_compute. left. reflexivity. }
  split; [exact H|].
  exact (bound_values_are_nonempty_and_stripped (possession ["61%"])
           candidates "Ball possession" "61%" H).
Defined.

(** X13, on the page with a sibling and a parent sibling: both resolvers
    yield "61%". *)
Lemma lazy_value_is_discovery_value_witness :
  truthy (lazy_extract ball_possession_re sibling_and_parent_sibling) = true /\
  lazy_extract ball_possession_re sibling_and_parent_sibling = Some "61%" /\
  resolve_value sibling_and_parent_sibling [0; 0; 0]%nat
  = lazy_extract ball_possession_re sibling_and_parent_sibling.
Proof.
  split; [reflexivity|]. split; [reflexivity|].
  apply (lazy_value_is_discovery_value ball_possession_re
           sibling_and_parent_sibling [0; 0; 0]%nat);
    reflexivity.
Defined.

(** X14, on the page whose label cell is followed by an empty cell. *)
Lemma get_value_after_unresolved_witness :
  fst (get_value (env_of [possession []])
         (metric "Ball possession" (make_lazy_extractor ball_possession_re)
            RequestsScraper) w0) = Ok PyNone \/
  fst (get_value (env_of [possession []])
         (metric "Ball possession" (make_lazy_extractor ball_possession_re)
            RequestsScraper) w0) = Ok (PyStr EmptyString).
Proof.
  apply (get_value_after_unresolved (env_of [possession []])
           (metric "Ball possession" (make_lazy_extractor ball_possession_re)
              RequestsScraper)
           w0 url RequestsScraper ball_possession_re (possession [])
           [0; 0; 0]%nat);
    reflexivity.
Defined.

(** X15, for the label cell of a table: the row above it is no tag of
    the five kinds. *)
Lemma label_node_is_outermost_witness :
  Bs4.find (possession ["61%"]) (is_label ball_possession_re)
  = Some ([0; 0] ++ [0])%nat /\
  ~ In "tr" label_tags.
Proof.
  split; [reflexivity|].
  apply (label_node_is_outermost "Ball possession" ball_possession_re
           (possession ["61%"]) [0; 0; 0]%nat [0; 0]%nat [0%nat]
           (row [cell ["Ball possession"]; cell ["61%"]]) "tr").
  - left. reflexivity.
  - discriminate.
  - reflexivity.
  - reflexivity.
  - discriminate.
  - discriminate.
  - reflexivity.
  - reflexivity.
Defined.

(** X16, for a selector metric on a page whose paragraph reads " 43% ". *)
Lemma fetch_raw_returns_stripped_witness :
  fetch_raw (env_of [paragraph " 43% "])
    (metric "Ball possession" (make_extractor "p") RequestsScraper) w0
  = (Ok (PyStr "43%"), World 0 [(RequestsScraper, url)]) /\
  Str.strip "43%" = "43%" /\ Str.clean "43%" = true.
Proof.
  split; [reflexivity|].
  apply (fetch_raw_returns_stripped (env_of [paragraph " 43% "])
           (metric "Ball possession" (make_extractor "p") RequestsScraper)
           w0 "43%" (World 0 [(RequestsScraper, url)])).
  reflexivity.
Defined.

(** X17, for a bound metric and a page that reads 55%. *)
Lemma bound_metric_get_value_raises_witness :
  fst (fetch_raw (env_of [possession ["55%"]])
         (metric "Ball possession" (captured_val_lambda "61%") RequestsScraper)
         w0)
  = Ok (PyFunction (possession ["55%"])) /\
  fst (get_value (env_of [possession ["55%"]])
         (metric "Ball possession" (captured_val_lambda "61%") RequestsScraper)
         w0)
  = Raise (AttributeError "'function' object has no attribute 'strip'").
Proof.
  apply (bound_metric_get_value_raises (env_of [possession ["55%"]])
           (metric "Ball possession" (captured_val_lambda "61%")
              RequestsScraper)
           "61%" url w0 (possession ["55%"]));
    reflexivity.
Defined.

(** X18, for a metric that captured a page reading 61%, fetching a page
    that reads 55%. *)
Lemma playwright_selector_metric_ignores_fetched_page_witness :
  fetch_raw (env_of [paragraph "55%"])
    (metric "Ball possession"
       (make_extractor_playwright (paragraph "61%") "p") PlaywrightScraper) w0
  = (Ok (of_optional
           (extract_by_selector (env_of [paragraph "55%"]) (paragraph "61%")
              "p")),
     World (clock w0)
       (fetched w0
        ++ [(_get_scraper
               (metric "Ball possession"
                  (make_extractor_playwright (paragraph "61%") "p")
                  PlaywrightScraper), url)])).
Proof.
  apply (playwright_selector_metric_ignores_fetched_page
           (env_of [paragraph "55%"])
           (metric "Ball possession"
              (make_extractor_playwright (paragraph "61%") "p")
              PlaywrightScraper)
           (paragraph "61%") "p" url w0 (paragraph "55%"));
    reflexivity.
Defined.

(** X21, for a delay of minus one second and for one of ten thousand
    million seconds. *)
Lemma refresh_refused_delay_never_fetches_witness :
  ((- (9000000000 # 1) <= -1)%Q /\ (-1 < 0)%Q /\
   refresh (env_of [paragraph "43%"])
     (metric "Ball possession" (make_extractor "p") RequestsScraper)
     (Finite (-1)) w0
   = (Raise (ValueError "sleep length must be non-negative"), w0)) /\
  ((10000000000 # 1 <= 10000000000 # 1)%Q /\
   refresh (env_of [paragraph "43%"])
     (metric "Ball possession" (make_extractor "p") RequestsScraper)
     (Finite (10000000000 # 1)) w0
   = (Raise (OverflowError "timestamp too large to convert to C _PyTime_t"),
      w0)).
Proof.
  split.
  - split; [discriminate|]. split; [reflexivity|].
    apply (proj1 (proj2 (refresh_refused_delay_never_fetches
                           (env_of [paragraph "43%"])
                           (metric "Ball possession" (make_extractor "p")
                              RequestsScraper) w0)));
      [discriminate | reflexivity].
  - split; [discriminate|].
    apply (proj1 (proj2 (proj2 (refresh_refused_delay_never_fetches
                                  (env_of [paragraph "43%"])
                                  (metric "Ball possession"
                                     (make_extractor "p") RequestsScraper)
                                  w0)))).
    right. discriminate.
Defined.


(** C3, amended, at a raw string with blanks around it, and on a page
    whose selected paragraph reads "43%". *)
Lemma get_value_coerces_or_trims_witness :
  parse_raw " N/A " = PyStr "N/A" /\
  parse_raw "Rank: 7th" = PyFloat 7 /\
  (fetch_raw (env_of [paragraph "43%"])
     (metric "Ball possession" (make_extractor "p") RequestsScraper) w0
   = (Ok (PyStr "43%"), World 0 [(RequestsScraper, url)]) /\
   get_value (env_of [paragraph "43%"])
     (metric "Ball possession" (make_extractor "p") RequestsScraper) w0
   = (Ok (PyFloat 43), World 0 [(RequestsScraper, url)])).
Proof.
  split; [|split; [|split]].
  - exact (proj1 (get_value_coerces_or_trims (env_of [])) " N/A ").
  - exact (proj1 (get_value_coerces_or_trims (env_of [])) "Rank: 7th").
  - reflexivity.
  - apply (proj2 (get_value_coerces_or_trims (env_of [paragraph "43%"]))
             (metric "Ball possession" (make_extractor "p") RequestsScraper)
             w0 (Some "43%")).
    reflexivity.
Defined.
